(** * Time_catcher: the [TimerModel] state machine of [timer_app.py]

    The development embeds the timer core of the floating timer widget:
    the two enumerations, the snapshot record, the model object and its
    seven methods.  Python objects are mutable; every method is therefore
    a function from the model before the call to the model after it, and
    [snapshot], which both returns a value and may mutate the model,
    returns a pair.

    Numbers.  [_target_seconds] is a Python [int] and is modelled by [Z].
    Timestamps and elapsed times are Python [float]s read from a monotonic
    clock.  The class is embedded twice.  The first embedding takes the
    arithmetic to be exact: floats are the rationals [Q], and the mixed
    expression [self._target_seconds - elapsed] converts the integer with
    [inject_Z]; it carries the properties of the state machine, which rest
    on the branches taken and not on the laws of arithmetic.  The module
    [Binary64] repeats the class with the arithmetic of the source, IEEE
    754 doubles with rounding, NaN, infinities and the [OverflowError] of
    the integer conversion; it carries the properties whose content is a
    number the model reports.

    The second half of the definitions embeds the display format
    [_format_hms] and the handlers of [FloatingTimerApp] that drive the
    model: the attributes they read and write, the [after] queue of the Tk
    root they schedule their callbacks on, and the events the main loop
    delivers. *)

From Stdlib Require Import ZArith QArith Qminmax Bool List Lia Lqa.
From Stdlib Require Import Qround String Ascii DecimalString DecimalPos DecimalZ.
From Stdlib Require Import SpecFloat.
Import ListNotations.

(** ** Data model *)

(** [class TimerMode(str, Enum)] *)
Inductive TimerMode : Type :=
| UP
| DOWN.

(** [class TimerState(str, Enum)] *)
Inductive TimerState : Type :=
| IDLE
| RUNNING
| PAUSED
| FINISHED.

(** [@dataclass class TimerSnapshot] *)
Record TimerSnapshot : Type := mkTimerSnapshot {
  snap_mode : TimerMode;
  snap_state : TimerState;
  elapsed_seconds : Q;
  remaining_seconds : option Q
}.

(** The instance attributes of [class TimerModel]. *)
Record TimerModel : Type := mkTimerModel {
  _mode : TimerMode;
  _state : TimerState;
  _target_seconds : Z;
  _start_perf : option Q;
  _accumulated_elapsed : Q
}.

(** [==] on the two enumerations. *)
Definition TimerMode_eqb (a b : TimerMode) : bool :=
  match a, b with
  | UP, UP | DOWN, DOWN => true
  | _, _ => false
  end.

Definition TimerState_eqb (a b : TimerState) : bool :=
  match a, b with
  | IDLE, IDLE | RUNNING, RUNNING | PAUSED, PAUSED | FINISHED, FINISHED => true
  | _, _ => false
  end.

(** ** Methods of [TimerModel] *)

(** [TimerModel.__init__] *)
Definition init : TimerModel :=
  {| _mode := UP;
     _state := IDLE;
     _target_seconds := 5 * 60;
     _start_perf := None;
     _accumulated_elapsed := 0 |}.

(** [TimerModel.reset] *)
Definition reset (self : TimerModel) : TimerModel :=
  {| _mode := _mode self;
     _state := IDLE;
     _target_seconds := _target_seconds self;
     _start_perf := None;
     _accumulated_elapsed := 0 |}.

(** [TimerModel.set_mode]: the early return, then the assignment to
    [self._mode] followed by [self.reset()]. *)
Definition set_mode (mode : TimerMode) (self : TimerModel) : TimerModel :=
  if TimerMode_eqb mode (_mode self) then self
  else
    reset {| _mode := mode;
             _state := _state self;
             _target_seconds := _target_seconds self;
             _start_perf := _start_perf self;
             _accumulated_elapsed := _accumulated_elapsed self |}.

(** [TimerModel.set_target_seconds]: [seconds = max(0, int(seconds))]. *)
Definition set_target_seconds (seconds : Z) (self : TimerModel) : TimerModel :=
  let seconds := Z.max 0 seconds in
  {| _mode := _mode self;
     _state := _state self;
     _target_seconds := seconds;
     _start_perf := _start_perf self;
     _accumulated_elapsed :=
       if TimerMode_eqb (_mode self) DOWN
          && (TimerState_eqb (_state self) IDLE
              || TimerState_eqb (_state self) FINISHED)
       then 0
       else _accumulated_elapsed self |}.

(** [TimerModel.start] *)
Definition start (now : Q) (self : TimerModel) : TimerModel :=
  if TimerState_eqb (_state self) RUNNING then self
  else
    {| _mode := _mode self;
       _state := RUNNING;
       _target_seconds := _target_seconds self;
       _start_perf := Some now;
       _accumulated_elapsed :=
         if TimerState_eqb (_state self) IDLE
            || TimerState_eqb (_state self) FINISHED
         then 0
         else _accumulated_elapsed self |}.

(** [TimerModel.pause] *)
Definition pause (now : Q) (self : TimerModel) : TimerModel :=
  if negb (TimerState_eqb (_state self) RUNNING) then self
  else
    {| _mode := _mode self;
       _state := PAUSED;
       _target_seconds := _target_seconds self;
       _start_perf := None;
       _accumulated_elapsed :=
         match _start_perf self with
         | Some started => _accumulated_elapsed self + (now - started)
         | None => _accumulated_elapsed self
         end |}.

(** [TimerModel.resume] *)
Definition resume (now : Q) (self : TimerModel) : TimerModel :=
  if negb (TimerState_eqb (_state self) PAUSED) then self
  else
    {| _mode := _mode self;
       _state := RUNNING;
       _target_seconds := _target_seconds self;
       _start_perf := Some now;
       _accumulated_elapsed := _accumulated_elapsed self |}.

(** The local variable [elapsed] of [snapshot] after its first three
    lines. *)
Definition elapsed_at (now : Q) (self : TimerModel) : Q :=
  let elapsed := _accumulated_elapsed self in
  match _state self, _start_perf self with
  | RUNNING, Some started => elapsed + (now - started)
  | _, _ => elapsed
  end.

(** [TimerModel.snapshot]: the returned snapshot and the model after the
    call.  In the count-down branch the snapshot reads [self._state] after
    the possible assignment of [FINISHED]. *)
Definition snapshot (now : Q) (self : TimerModel) : TimerSnapshot * TimerModel :=
  let elapsed := elapsed_at now self in
  match _mode self with
  | UP =>
      ({| snap_mode := _mode self;
          snap_state := _state self;
          elapsed_seconds := elapsed;
          remaining_seconds := None |}, self)
  | DOWN =>
      let remaining := inject_Z (_target_seconds self) - elapsed in
      if Qle_bool remaining 0 then
        let remaining := 0 in
        let self' :=
          if TimerState_eqb (_state self) RUNNING then
            {| _mode := _mode self;
               _state := FINISHED;
               _target_seconds := _target_seconds self;
               _start_perf := None;
               _accumulated_elapsed := _accumulated_elapsed self |}
          else self in
        ({| snap_mode := _mode self';
            snap_state := _state self';
            elapsed_seconds := elapsed;
            remaining_seconds := Some remaining |}, self')
      else
        ({| snap_mode := _mode self;
            snap_state := _state self;
            elapsed_seconds := elapsed;
            remaining_seconds := Some remaining |}, self)
  end.

(** ** Call sequences *)

(** One call made by the presentation layer. *)
Inductive op : Type :=
| SetMode (mode : TimerMode)
| SetTargetSeconds (seconds : Z)
| Start (now : Q)
| Pause (now : Q)
| Resume (now : Q)
| Reset
| Snapshot (now : Q).

(** The model after one call (the value returned by [snapshot] is
    dropped). *)
Definition step (o : op) (self : TimerModel) : TimerModel :=
  match o with
  | SetMode mode => set_mode mode self
  | SetTargetSeconds seconds => set_target_seconds seconds self
  | Start now => start now self
  | Pause now => pause now self
  | Resume now => resume now self
  | Reset => reset self
  | Snapshot now => snd (snapshot now self)
  end.

(** The model after a sequence of calls, first call first. *)
Fixpoint run (ops : list op) (self : TimerModel) : TimerModel :=
  match ops with
  | [] => self
  | o :: rest => run rest (step o self)
  end.

(** ** Vocabulary of the properties *)

(** The invariant of the data model: [_start_perf] is set exactly while
    the model is running. *)
Definition start_perf_iff_running (self : TimerModel) : Prop :=
  _start_perf self <> None <-> _state self = RUNNING.

(** A count-down model with a target of five seconds, as the calls
    [set_mode(DOWN)] and [set_target_seconds(5)] leave a new model. *)
Definition countdown5 : TimerModel :=
  set_target_seconds 5 (set_mode DOWN init).

(** ** The model in double arithmetic

    The same class once more, with the arithmetic Python performs: the
    timestamps and elapsed times are IEEE 754 binary64 numbers
    ([spec_float] with a precision of 53 bits), every [+] and [-] rounds
    to nearest-even, a comparison with a NaN is false, and the integer
    target is converted to a double before it is subtracted from, which
    raises [OverflowError] when the integer does not fit.  The claims
    whose content is a reported number are settled on this module. *)
Module Binary64.

Definition float : Type := spec_float.

Definition prec : Z := 53.
Definition emax : Z := 1024.

(** The double nearest to an integer (ties to even; an infinity when the
    integer is out of range). *)
Definition of_Z (n : Z) : float := binary_normalize prec emax n 0 false.

(** [0.0] *)
Definition zero : float := S754_zero false.

(** [x + y], [x - y] and [x <= y], [x < y] on doubles. *)
Definition add (x y : float) : float := SFadd prec emax x y.
Definition sub (x y : float) : float := SFsub prec emax x y.
Definition leb (x y : float) : bool := SFleb x y.
Definition ltb (x y : float) : bool := SFltb x y.

(** The conversion of a Python [int] operand to a double in mixed
    arithmetic: correctly rounded, and [None], standing for
    [OverflowError], when the rounded value is beyond the largest
    double. *)
Definition float_of_int (n : Z) : option float :=
  match of_Z n with
  | S754_infinity _ => None
  | x => Some x
  end.

(** The exact value of a finite double. *)
Definition value (x : float) : option Q :=
  match x with
  | S754_zero _ => Some 0
  | S754_finite s m e =>
      Some (inject_Z (if s then Z.neg m else Z.pos m) * Qpower 2 e)
  | S754_infinity _ | S754_nan => None
  end.

(** [max(0, d)] as the builtin computes it: the first argument is kept
    unless the second is greater. *)
Definition max_0 (d : float) : float :=
  if ltb zero d then d else zero.

(** What a call returns: a value, or the exception it raises. *)
Inductive exn : Type :=
| OverflowError.

Inductive result (A : Type) : Type :=
| Ok (a : A)
| Raise (e : exn).

Arguments Ok {A} a.
Arguments Raise {A} e.

(** [@dataclass class TimerSnapshot] *)
Record TimerSnapshot : Type := mkTimerSnapshot {
  snap_mode : TimerMode;
  snap_state : TimerState;
  elapsed_seconds : float;
  remaining_seconds : option float
}.

(** The instance attributes of [class TimerModel]. *)
Record TimerModel : Type := mkTimerModel {
  _mode : TimerMode;
  _state : TimerState;
  _target_seconds : Z;
  _start_perf : option float;
  _accumulated_elapsed : float
}.

(** [TimerModel.__init__] *)
Definition init : TimerModel :=
  {| _mode := UP;
     _state := IDLE;
     _target_seconds := 5 * 60;
     _start_perf := None;
     _accumulated_elapsed := zero |}.

(** [TimerModel.reset] *)
Definition reset (self : TimerModel) : TimerModel :=
  {| _mode := _mode self;
     _state := IDLE;
     _target_seconds := _target_seconds self;
     _start_perf := None;
     _accumulated_elapsed := zero |}.

(** [TimerModel.set_mode] *)
Definition set_mode (mode : TimerMode) (self : TimerModel) : TimerModel :=
  if TimerMode_eqb mode (_mode self) then self
  else
    reset {| _mode := mode;
             _state := _state self;
             _target_seconds := _target_seconds self;
             _start_perf := _start_perf self;
             _accumulated_elapsed := _accumulated_elapsed self |}.

(** [TimerModel.set_target_seconds] *)
Definition set_target_seconds (seconds : Z) (self : TimerModel) : TimerModel :=
  let seconds := Z.max 0 seconds in
  {| _mode := _mode self;
     _state := _state self;
     _target_seconds := seconds;
     _start_perf := _start_perf self;
     _accumulated_elapsed :=
       if TimerMode_eqb (_mode self) DOWN
          && (TimerState_eqb (_state self) IDLE
              || TimerState_eqb (_state self) FINISHED)
       then zero
       else _accumulated_elapsed self |}.

(** [TimerModel.start] *)
Definition start (now : float) (self : TimerModel) : TimerModel :=
  if TimerState_eqb (_state self) RUNNING then self
  else
    {| _mode := _mode self;
       _state := RUNNING;
       _target_seconds := _target_seconds self;
       _start_perf := Some now;
       _accumulated_elapsed :=
         if TimerState_eqb (_state self) IDLE
            || TimerState_eqb (_state self) FINISHED
         then zero
         else _accumulated_elapsed self |}.

(** [TimerModel.pause] *)
Definition pause (now : float) (self : TimerModel) : TimerModel :=
  if negb (TimerState_eqb (_state self) RUNNING) then self
  else
    {| _mode := _mode self;
       _state := PAUSED;
       _target_seconds := _target_seconds self;
       _start_perf := None;
       _accumulated_elapsed :=
         match _start_perf self with
         | Some started => add (_accumulated_elapsed self) (sub now started)
         | None => _accumulated_elapsed self
         end |}.

(** [TimerModel.resume] *)
Definition resume (now : float) (self : TimerModel) : TimerModel :=
  if negb (TimerState_eqb (_state self) PAUSED) then self
  else
    {| _mode := _mode self;
       _state := RUNNING;
       _target_seconds := _target_seconds self;
       _start_perf := Some now;
       _accumulated_elapsed := _accumulated_elapsed self |}.

(** The local variable [elapsed] of [snapshot] after its first three
    lines. *)
Definition elapsed_at (now : float) (self : TimerModel) : float :=
  let elapsed := _accumulated_elapsed self in
  match _state self, _start_perf self with
  | RUNNING, Some started => add elapsed (sub now started)
  | _, _ => elapsed
  end.

(** [TimerModel.snapshot]: what the call returns and the model after it.
    The subtraction [self._target_seconds - elapsed] is the only place
    that can raise, and it comes before any assignment. *)
Definition snapshot (now : float) (self : TimerModel)
  : result TimerSnapshot * TimerModel :=
  let elapsed := elapsed_at now self in
  match _mode self with
  | UP =>
      (Ok {| snap_mode := _mode self;
             snap_state := _state self;
             elapsed_seconds := elapsed;
             remaining_seconds := None |}, self)
  | DOWN =>
      match float_of_int (_target_seconds self) with
      | None => (Raise OverflowError, self)
      | Some target =>
          let remaining := sub target elapsed in
          if leb remaining zero then
            let remaining := zero in
            let self' :=
              if TimerState_eqb (_state self) RUNNING then
                {| _mode := _mode self;
                   _state := FINISHED;
                   _target_seconds := _target_seconds self;
                   _start_perf := None;
                   _accumulated_elapsed := _accumulated_elapsed self |}
              else self in
            (Ok {| snap_mode := _mode self';
                   snap_state := _state self';
                   elapsed_seconds := elapsed;
                   remaining_seconds := Some remaining |}, self')
          else
            (Ok {| snap_mode := _mode self;
                   snap_state := _state self;
                   elapsed_seconds := elapsed;
                   remaining_seconds := Some remaining |}, self)
      end
  end.

(** One call made by the presentation layer. *)
Inductive op : Type :=
| SetMode (mode : TimerMode)
| SetTargetSeconds (seconds : Z)
| Start (now : float)
| Pause (now : float)
| Resume (now : float)
| Reset
| Snapshot (now : float).

(** The model after one call; what [snapshot] returns or raises is
    dropped. *)
Definition step (o : op) (self : TimerModel) : TimerModel :=
  match o with
  | SetMode mode => set_mode mode self
  | SetTargetSeconds seconds => set_target_seconds seconds self
  | Start now => start now self
  | Pause now => pause now self
  | Resume now => resume now self
  | Reset => reset self
  | Snapshot now => snd (snapshot now self)
  end.

(** The model after a sequence of calls, first call first. *)
Fixpoint run (ops : list op) (self : TimerModel) : TimerModel :=
  match ops with
  | [] => self
  | o :: rest => run rest (step o self)
  end.

(** *** Vocabulary of the properties *)

(** A model as [reset] (and hence a mode switch) leaves it. *)
Definition freshly_reset (self : TimerModel) : Prop :=
  reset self = self.

(** Calls that carry a reading of the clock. *)
Definition op_time (o : op) : option float :=
  match o with
  | Start now | Pause now | Resume now | Snapshot now => Some now
  | SetMode _ | SetTargetSeconds _ | Reset => None
  end.

Definition is_clock_op (o : op) : bool :=
  match op_time o with
  | Some _ => true
  | None => false
  end.

Definition is_snapshot (o : op) : bool :=
  match o with
  | Snapshot _ => true
  | _ => false
  end.

(** A call sequence with the polling removed. *)
Definition without_snapshots (ops : list op) : list op :=
  filter (fun o => negb (is_snapshot o)) ops.

Definition is_running (self : TimerModel) : bool :=
  TimerState_eqb (_state self) RUNNING.

(** No call of the sequence leaves the model in the Finished state. *)
Fixpoint never_finished (self : TimerModel) (ops : list op) : bool :=
  match ops with
  | [] => true
  | o :: rest =>
      negb (TimerState_eqb (_state (step o self)) FINISHED)
      && never_finished (step o self) rest
  end.

(** The periods the model spends Running while the calls [ops] are made,
    read off the states the model goes through: the completed periods,
    oldest first, each with the clock reading of the call that entered
    Running and of the call that left it, and the reading that opened
    the period still running at the end, if there is one.  [opened] is
    the reading that opened the period running when [ops] begin. *)
Fixpoint running_periods (self : TimerModel) (opened : option float)
    (ops : list op) : list (float * float) * option float :=
  match ops with
  | [] => ([], opened)
  | o :: rest =>
      let self' := step o self in
      match is_running self, is_running self', opened, op_time o with
      | false, true, _, Some t => running_periods self' (Some t) rest
      | true, false, Some since, Some t =>
          let '(periods, last) := running_periods self' None rest in
          ((since, t) :: periods, last)
      | _, _, _, _ => running_periods self' opened rest
      end
  end.

(** The sum of the durations of these periods, the one still running
    being counted up to [now]: durations are added in the order of the
    calls, in double arithmetic, starting from [0.0]. *)
Definition sum_durations (banked : float) (periods : list (float * float))
  : float :=
  fold_left (fun acc period => add acc (sub (snd period) (fst period)))
    periods banked.

Definition running_time (self : TimerModel) (ops : list op) (now : float)
  : float :=
  let '(periods, last) := running_periods self None ops in
  match last with
  | Some since => add (sum_durations zero periods) (sub now since)
  | None => sum_durations zero periods
  end.

(** The elapsed time a snapshot reports, if it returns. *)
Definition reported_elapsed (r : result TimerSnapshot) : option float :=
  match r with
  | Ok snap => Some (elapsed_seconds snap)
  | Raise _ => None
  end.

(** A count-down model with a target of five seconds. *)
Definition countdown5 : TimerModel :=
  set_target_seconds 5 (set_mode DOWN init).

(** An idle count-down with a target of [2^53 + 1] seconds, an integer
    that is not a double, and one with a target of [2^1024] seconds,
    which is beyond every double. *)
Definition countdown_odd : TimerModel :=
  set_target_seconds (2 ^ 53 + 1) (set_mode DOWN init).

Definition countdown_huge : TimerModel :=
  set_target_seconds (2 ^ 1024) (set_mode DOWN init).

End Binary64.

(** ** Formatting of the display

    [_format_hms] and the pieces of Python it uses.  Strings are Rocq
    strings, i.e. sequences of bytes; the non-ASCII literals of the source
    are their UTF-8 encodings. *)

Local Open Scope string_scope.

(** [int(x)] for a float [x]: truncation towards zero. *)
Definition int_of_float (x : Q) : Z :=
  Z.quot (Qnum x) (Z.pos (Qden x)).

(** [str(n)] for an integer: decimal digits, a minus sign for a negative
    number. *)
Definition str_of_int (n : Z) : string :=
  NilZero.string_of_int (Z.to_int n).

(** The format specification [:02d]: the decimal digits, filled with
    zeros on the left up to a width of two characters.  A negative number
    already has two characters, so a zero is only ever put in front of a
    single digit. *)
Definition format_02d (n : Z) : string :=
  let digits := str_of_int n in
  if (String.length digits <? 2)%nat then "0" ++ digits else digits.

(** The three numbers [_format_hms] prints. *)
Definition hms_fields (seconds : Z) : Z * Z * Z :=
  let h := (seconds / 3600)%Z in
  let m := ((seconds mod 3600) / 60)%Z in
  let s := (seconds mod 60)%Z in
  (h, m, s).

(** [_format_hms] *)
Definition _format_hms (total_seconds : Q) : string :=
  let seconds := Z.max 0 (int_of_float total_seconds) in
  let '(h, m, s) := hms_fields seconds in
  format_02d h ++ ":" ++ format_02d m ++ ":" ++ format_02d s.

(** [x or 0] for an optional float [x]: [None] and zero are false. *)
Definition or_zero (x : option Q) : Q :=
  match x with
  | Some r => if Qeq_bool r 0 then 0 else r
  | None => 0
  end.

(** ** The presentation layer: [FloatingTimerApp]

    The part of the application object the timer logic reads and writes:
    the model, the two [after] handles with the flash counter, the Tk
    variables, and the widget options the handlers configure.  Window
    geometry, packing and the drag offsets are not represented. *)

(** [TimerMode.value] *)
Definition TimerMode_value (mode : TimerMode) : string :=
  match mode with
  | UP => "正向计时"
  | DOWN => "倒计时"
  end.

(** The two texts of the start button. *)
Definition text_start : string := "开始计时".
Definition text_continue : string := "继续计时".

(** The colours [self._bg] and [self._danger]. *)
Definition _bg : string := "#1f232a".
Definition _danger : string := "#b91c1c".

(** The [state] option of an entry or a button. *)
Inductive widget_state : Type :=
| normal
| disabled.

(** The bound methods handed to [root.after]. *)
Inductive callback : Type :=
| OnUpdate
| FlashStep.

(** The [after] queue of the Tk root: identifiers are handed out in
    sequence, and a callback stays pending until it fires or is
    cancelled. *)
Record Root : Type := mkRoot {
  after_seq : nat;
  after_jobs : list (nat * callback)
}.

(** [root.after(ms, callback)]: the new identifier and the root with the
    callback pending.  The delay only decides when the callback fires and
    is not kept. *)
Definition after (cb : callback) (r : Root) : nat * Root :=
  (after_seq r,
   {| after_seq := S (after_seq r);
      after_jobs := (after_seq r, cb) :: after_jobs r |}).

(** [root.after_cancel(id)]: the callback is no longer pending; an
    identifier that is not pending is ignored. *)
Definition after_cancel (id : nat) (r : Root) : Root :=
  {| after_seq := after_seq r;
     after_jobs := filter (fun j => negb (Nat.eqb (fst j) id)) (after_jobs r) |}.

(** The callback pending under an identifier, if any. *)
Fixpoint pending (id : nat) (jobs : list (nat * callback)) : option callback :=
  match jobs with
  | [] => None
  | (id', cb) :: rest => if Nat.eqb id' id then Some cb else pending id rest
  end.

(** The attributes of [FloatingTimerApp] kept here, under their names in
    the source. *)
Record FloatingTimerApp : Type := mkFloatingTimerApp {
  root : Root;
  model : TimerModel;
  _update_job : option nat;
  _flash_job : option nat;
  _flash_remaining : Z;
  _time_text : string;
  _mode_var : string;
  _hours_var : string;
  _minutes_var : string;
  _seconds_var : string;
  _start_text : string;
  _compact : bool;
  container_bg : string;
  time_label_bg : string;
  hours_entry : widget_state;
  minutes_entry : widget_state;
  seconds_entry : widget_state;
  apply_btn : widget_state;
  start_btn : widget_state;
  stop_btn : widget_state
}.

(** Assignment to one attribute (or one [configure] call on one widget),
    all other attributes kept. *)
Definition set_root (v : Root) (app : FloatingTimerApp) : FloatingTimerApp :=
  {| root := v; model := model app; _update_job := _update_job app;
     _flash_job := _flash_job app; _flash_remaining := _flash_remaining app;
     _time_text := _time_text app; _mode_var := _mode_var app;
     _hours_var := _hours_var app; _minutes_var := _minutes_var app;
     _seconds_var := _seconds_var app; _start_text := _start_text app;
     _compact := _compact app; container_bg := container_bg app;
     time_label_bg := time_label_bg app; hours_entry := hours_entry app;
     minutes_entry := minutes_entry app; seconds_entry := seconds_entry app;
     apply_btn := apply_btn app; start_btn := start_btn app;
     stop_btn := stop_btn app |}.

Definition set_model (v : TimerModel) (app : FloatingTimerApp) : FloatingTimerApp :=
  {| root := root app; model := v; _update_job := _update_job app;
     _flash_job := _flash_job app; _flash_remaining := _flash_remaining app;
     _time_text := _time_text app; _mode_var := _mode_var app;
     _hours_var := _hours_var app; _minutes_var := _minutes_var app;
     _seconds_var := _seconds_var app; _start_text := _start_text app;
     _compact := _compact app; container_bg := container_bg app;
     time_label_bg := time_label_bg app; hours_entry := hours_entry app;
     minutes_entry := minutes_entry app; seconds_entry := seconds_entry app;
     apply_btn := apply_btn app; start_btn := start_btn app;
     stop_btn := stop_btn app |}.

Definition set_update_job (v : option nat) (app : FloatingTimerApp) : FloatingTimerApp :=
  {| root := root app; model := model app; _update_job := v;
     _flash_job := _flash_job app; _flash_remaining := _flash_remaining app;
     _time_text := _time_text app; _mode_var := _mode_var app;
     _hours_var := _hours_var app; _minutes_var := _minutes_var app;
     _seconds_var := _seconds_var app; _start_text := _start_text app;
     _compact := _compact app; container_bg := container_bg app;
     time_label_bg := time_label_bg app; hours_entry := hours_entry app;
     minutes_entry := minutes_entry app; seconds_entry := seconds_entry app;
     apply_btn := apply_btn app; start_btn := start_btn app;
     stop_btn := stop_btn app |}.

Definition set_flash_job (v : option nat) (app : FloatingTimerApp) : FloatingTimerApp :=
  {| root := root app; model := model app; _update_job := _update_job app;
     _flash_job := v; _flash_remaining := _flash_remaining app;
     _time_text := _time_text app; _mode_var := _mode_var app;
     _hours_var := _hours_var app; _minutes_var := _minutes_var app;
     _seconds_var := _seconds_var app; _start_text := _start_text app;
     _compact := _compact app; container_bg := container_bg app;
     time_label_bg := time_label_bg app; hours_entry := hours_entry app;
     minutes_entry := minutes_entry app; seconds_entry := seconds_entry app;
     apply_btn := apply_btn app; start_btn := start_btn app;
     stop_btn := stop_btn app |}.

Definition set_flash_remaining (v : Z) (app : FloatingTimerApp) : FloatingTimerApp :=
  {| root := root app; model := model app; _update_job := _update_job app;
     _flash_job := _flash_job app; _flash_remaining := v;
     _time_text := _time_text app; _mode_var := _mode_var app;
     _hours_var := _hours_var app; _minutes_var := _minutes_var app;
     _seconds_var := _seconds_var app; _start_text := _start_text app;
     _compact := _compact app; container_bg := container_bg app;
     time_label_bg := time_label_bg app; hours_entry := hours_entry app;
     minutes_entry := minutes_entry app; seconds_entry := seconds_entry app;
     apply_btn := apply_btn app; start_btn := start_btn app;
     stop_btn := stop_btn app |}.

Definition set_time_text (v : string) (app : FloatingTimerApp) : FloatingTimerApp :=
  {| root := root app; model := model app; _update_job := _update_job app;
     _flash_job := _flash_job app; _flash_remaining := _flash_remaining app;
     _time_text := v; _mode_var := _mode_var app;
     _hours_var := _hours_var app; _minutes_var := _minutes_var app;
     _seconds_var := _seconds_var app; _start_text := _start_text app;
     _compact := _compact app; container_bg := container_bg app;
     time_label_bg := time_label_bg app; hours_entry := hours_entry app;
     minutes_entry := minutes_entry app; seconds_entry := seconds_entry app;
     apply_btn := apply_btn app; start_btn := start_btn app;
     stop_btn := stop_btn app |}.

Definition set_mode_var (v : string) (app : FloatingTimerApp) : FloatingTimerApp :=
  {| root := root app; model := model app; _update_job := _update_job app;
     _flash_job := _flash_job app; _flash_remaining := _flash_remaining app;
     _time_text := _time_text app; _mode_var := v;
     _hours_var := _hours_var app; _minutes_var := _minutes_var app;
     _seconds_var := _seconds_var app; _start_text := _start_text app;
     _compact := _compact app; container_bg := container_bg app;
     time_label_bg := time_label_bg app; hours_entry := hours_entry app;
     minutes_entry := minutes_entry app; seconds_entry := seconds_entry app;
     apply_btn := apply_btn app; start_btn := start_btn app;
     stop_btn := stop_btn app |}.

Definition set_hours_var (v : string) (app : FloatingTimerApp) : FloatingTimerApp :=
  {| root := root app; model := model app; _update_job := _update_job app;
     _flash_job := _flash_job app; _flash_remaining := _flash_remaining app;
     _time_text := _time_text app; _mode_var := _mode_var app;
     _hours_var := v; _minutes_var := _minutes_var app;
     _seconds_var := _seconds_var app; _start_text := _start_text app;
     _compact := _compact app; container_bg := container_bg app;
     time_label_bg := time_label_bg app; hours_entry := hours_entry app;
     minutes_entry := minutes_entry app; seconds_entry := seconds_entry app;
     apply_btn := apply_btn app; start_btn := start_btn app;
     stop_btn := stop_btn app |}.

Definition set_minutes_var (v : string) (app : FloatingTimerApp) : FloatingTimerApp :=
  {| root := root app; model := model app; _update_job := _update_job app;
     _flash_job := _flash_job app; _flash_remaining := _flash_remaining app;
     _time_text := _time_text app; _mode_var := _mode_var app;
     _hours_var := _hours_var app; _minutes_var := v;
     _seconds_var := _seconds_var app; _start_text := _start_text app;
     _compact := _compact app; container_bg := container_bg app;
     time_label_bg := time_label_bg app; hours_entry := hours_entry app;
     minutes_entry := minutes_entry app; seconds_entry := seconds_entry app;
     apply_btn := apply_btn app; start_btn := start_btn app;
     stop_btn := stop_btn app |}.

Definition set_seconds_var (v : string) (app : FloatingTimerApp) : FloatingTimerApp :=
  {| root := root app; model := model app; _update_job := _update_job app;
     _flash_job := _flash_job app; _flash_remaining := _flash_remaining app;
     _time_text := _time_text app; _mode_var := _mode_var app;
     _hours_var := _hours_var app; _minutes_var := _minutes_var app;
     _seconds_var := v; _start_text := _start_text app;
     _compact := _compact app; container_bg := container_bg app;
     time_label_bg := time_label_bg app; hours_entry := hours_entry app;
     minutes_entry := minutes_entry app; seconds_entry := seconds_entry app;
     apply_btn := apply_btn app; start_btn := start_btn app;
     stop_btn := stop_btn app |}.

Definition set_start_text (v : string) (app : FloatingTimerApp) : FloatingTimerApp :=
  {| root := root app; model := model app; _update_job := _update_job app;
     _flash_job := _flash_job app; _flash_remaining := _flash_remaining app;
     _time_text := _time_text app; _mode_var := _mode_var app;
     _hours_var := _hours_var app; _minutes_var := _minutes_var app;
     _seconds_var := _seconds_var app; _start_text := v;
     _compact := _compact app; container_bg := container_bg app;
     time_label_bg := time_label_bg app; hours_entry := hours_entry app;
     minutes_entry := minutes_entry app; seconds_entry := seconds_entry app;
     apply_btn := apply_btn app; start_btn := start_btn app;
     stop_btn := stop_btn app |}.

Definition set_compact (v : bool) (app : FloatingTimerApp) : FloatingTimerApp :=
  {| root := root app; model := model app; _update_job := _update_job app;
     _flash_job := _flash_job app; _flash_remaining := _flash_remaining app;
     _time_text := _time_text app; _mode_var := _mode_var app;
     _hours_var := _hours_var app; _minutes_var := _minutes_var app;
     _seconds_var := _seconds_var app; _start_text := _start_text app;
     _compact := v; container_bg := container_bg app;
     time_label_bg := time_label_bg app; hours_entry := hours_entry app;
     minutes_entry := minutes_entry app; seconds_entry := seconds_entry app;
     apply_btn := apply_btn app; start_btn := start_btn app;
     stop_btn := stop_btn app |}.

Definition set_container_bg (v : string) (app : FloatingTimerApp) : FloatingTimerApp :=
  {| root := root app; model := model app; _update_job := _update_job app;
     _flash_job := _flash_job app; _flash_remaining := _flash_remaining app;
     _time_text := _time_text app; _mode_var := _mode_var app;
     _hours_var := _hours_var app; _minutes_var := _minutes_var app;
     _seconds_var := _seconds_var app; _start_text := _start_text app;
     _compact := _compact app; container_bg := v;
     time_label_bg := time_label_bg app; hours_entry := hours_entry app;
     minutes_entry := minutes_entry app; seconds_entry := seconds_entry app;
     apply_btn := apply_btn app; start_btn := start_btn app;
     stop_btn := stop_btn app |}.

Definition set_time_label_bg (v : string) (app : FloatingTimerApp) : FloatingTimerApp :=
  {| root := root app; model := model app; _update_job := _update_job app;
     _flash_job := _flash_job app; _flash_remaining := _flash_remaining app;
     _time_text := _time_text app; _mode_var := _mode_var app;
     _hours_var := _hours_var app; _minutes_var := _minutes_var app;
     _seconds_var := _seconds_var app; _start_text := _start_text app;
     _compact := _compact app; container_bg := container_bg app;
     time_label_bg := v; hours_entry := hours_entry app;
     minutes_entry := minutes_entry app; seconds_entry := seconds_entry app;
     apply_btn := apply_btn app; start_btn := start_btn app;
     stop_btn := stop_btn app |}.

Definition set_hours_entry (v : widget_state) (app : FloatingTimerApp) : FloatingTimerApp :=
  {| root := root app; model := model app; _update_job := _update_job app;
     _flash_job := _flash_job app; _flash_remaining := _flash_remaining app;
     _time_text := _time_text app; _mode_var := _mode_var app;
     _hours_var := _hours_var app; _minutes_var := _minutes_var app;
     _seconds_var := _seconds_var app; _start_text := _start_text app;
     _compact := _compact app; container_bg := container_bg app;
     time_label_bg := time_label_bg app; hours_entry := v;
     minutes_entry := minutes_entry app; seconds_entry := seconds_entry app;
     apply_btn := apply_btn app; start_btn := start_btn app;
     stop_btn := stop_btn app |}.

Definition set_minutes_entry (v : widget_state) (app : FloatingTimerApp) : FloatingTimerApp :=
  {| root := root app; model := model app; _update_job := _update_job app;
     _flash_job := _flash_job app; _flash_remaining := _flash_remaining app;
     _time_text := _time_text app; _mode_var := _mode_var app;
     _hours_var := _hours_var app; _minutes_var := _minutes_var app;
     _seconds_var := _seconds_var app; _start_text := _start_text app;
     _compact := _compact app; container_bg := container_bg app;
     time_label_bg := time_label_bg app; hours_entry := hours_entry app;
     minutes_entry := v; seconds_entry := seconds_entry app;
     apply_btn := apply_btn app; start_btn := start_btn app;
     stop_btn := stop_btn app |}.

Definition set_seconds_entry (v : widget_state) (app : FloatingTimerApp) : FloatingTimerApp :=
  {| root := root app; model := model app; _update_job := _update_job app;
     _flash_job := _flash_job app; _flash_remaining := _flash_remaining app;
     _time_text := _time_text app; _mode_var := _mode_var app;
     _hours_var := _hours_var app; _minutes_var := _minutes_var app;
     _seconds_var := _seconds_var app; _start_text := _start_text app;
     _compact := _compact app; container_bg := container_bg app;
     time_label_bg := time_label_bg app; hours_entry := hours_entry app;
     minutes_entry := minutes_entry app; seconds_entry := v;
     apply_btn := apply_btn app; start_btn := start_btn app;
     stop_btn := stop_btn app |}.

Definition set_apply_btn (v : widget_state) (app : FloatingTimerApp) : FloatingTimerApp :=
  {| root := root app; model := model app; _update_job := _update_job app;
     _flash_job := _flash_job app; _flash_remaining := _flash_remaining app;
     _time_text := _time_text app; _mode_var := _mode_var app;
     _hours_var := _hours_var app; _minutes_var := _minutes_var app;
     _seconds_var := _seconds_var app; _start_text := _start_text app;
     _compact := _compact app; container_bg := container_bg app;
     time_label_bg := time_label_bg app; hours_entry := hours_entry app;
     minutes_entry := minutes_entry app; seconds_entry := seconds_entry app;
     apply_btn := v; start_btn := start_btn app; stop_btn := stop_btn app |}.

Definition set_start_btn (v : widget_state) (app : FloatingTimerApp) : FloatingTimerApp :=
  {| root := root app; model := model app; _update_job := _update_job app;
     _flash_job := _flash_job app; _flash_remaining := _flash_remaining app;
     _time_text := _time_text app; _mode_var := _mode_var app;
     _hours_var := _hours_var app; _minutes_var := _minutes_var app;
     _seconds_var := _seconds_var app; _start_text := _start_text app;
     _compact := _compact app; container_bg := container_bg app;
     time_label_bg := time_label_bg app; hours_entry := hours_entry app;
     minutes_entry := minutes_entry app; seconds_entry := seconds_entry app;
     apply_btn := apply_btn app; start_btn := v; stop_btn := stop_btn app |}.

Definition set_stop_btn (v : widget_state) (app : FloatingTimerApp) : FloatingTimerApp :=
  {| root := root app; model := model app; _update_job := _update_job app;
     _flash_job := _flash_job app; _flash_remaining := _flash_remaining app;
     _time_text := _time_text app; _mode_var := _mode_var app;
     _hours_var := _hours_var app; _minutes_var := _minutes_var app;
     _seconds_var := _seconds_var app; _start_text := _start_text app;
     _compact := _compact app; container_bg := container_bg app;
     time_label_bg := time_label_bg app; hours_entry := hours_entry app;
     minutes_entry := minutes_entry app; seconds_entry := seconds_entry app;
     apply_btn := apply_btn app; start_btn := start_btn app;
     stop_btn := v |}.

(** The handlers.  [int_of_str] stands for the builtin [int] applied to a
    string: [None] is the [ValueError] the handlers catch.  [now] is the
    reading of [perf_counter()] made by the handler. *)
Section Handlers.

Variable int_of_str : string -> option Z.

(** [FloatingTimerApp._cancel_update_loop] *)
Definition _cancel_update_loop (app : FloatingTimerApp) : FloatingTimerApp :=
  match _update_job app with
  | None => app
  | Some id => set_update_job None (set_root (after_cancel id (root app)) app)
  end.

(** [FloatingTimerApp._ensure_update_loop] *)
Definition _ensure_update_loop (app : FloatingTimerApp) : FloatingTimerApp :=
  match _update_job app with
  | None =>
      let '(id, r) := after OnUpdate (root app) in
      set_update_job (Some id) (set_root r app)
  | Some _ => app
  end.

(** [FloatingTimerApp._stop_flash] *)
Definition _stop_flash (app : FloatingTimerApp) : FloatingTimerApp :=
  let app :=
    match _flash_job app with
    | Some id => set_root (after_cancel id (root app)) app
    | None => app
    end in
  let app := set_flash_job None app in
  let app := set_flash_remaining 0%Z app in
  let app := set_container_bg _bg app in
  set_time_label_bg _bg app.

(** [FloatingTimerApp._flash_step] *)
Definition _flash_step (app : FloatingTimerApp) : FloatingTimerApp :=
  let app := set_flash_job None app in
  if (_flash_remaining app <=? 0)%Z then
    let app := set_container_bg _bg app in
    set_time_label_bg _bg app
  else
    let app := set_flash_remaining (_flash_remaining app - 1)%Z app in
    let is_danger := (_flash_remaining app mod 2 =? 0)%Z in
    let bg := if is_danger then _danger else _bg in
    let app := set_container_bg bg app in
    let app := set_time_label_bg bg app in
    let '(id, r) := after FlashStep (root app) in
    set_flash_job (Some id) (set_root r app).

(** [FloatingTimerApp._start_flash] *)
Definition _start_flash (app : FloatingTimerApp) : FloatingTimerApp :=
  match _flash_job app with
  | Some _ => app
  | None => _flash_step (set_flash_remaining 8%Z app)
  end.

(** [FloatingTimerApp._sync_ui_from_model] *)
Definition _sync_ui_from_model (app : FloatingTimerApp) : FloatingTimerApp :=
  let state := _state (model app) in
  let mode := _mode (model app) in
  let app :=
    match mode with
    | UP =>
        let app := set_hours_entry disabled app in
        let app := set_minutes_entry disabled app in
        let app := set_seconds_entry disabled app in
        let app := set_apply_btn disabled app in
        if TimerState_eqb state IDLE then set_time_text "00:00:00" app
        else app
    | DOWN =>
        let inputs_state :=
          if TimerState_eqb state IDLE || TimerState_eqb state FINISHED
          then normal else disabled in
        let app := set_hours_entry inputs_state app in
        let app := set_minutes_entry inputs_state app in
        let app := set_seconds_entry inputs_state app in
        let app := set_apply_btn inputs_state app in
        if TimerState_eqb state IDLE
        then set_time_text
               (_format_hms (inject_Z (_target_seconds (model app)))) app
        else app
    end in
  let app :=
    if TimerState_eqb state PAUSED then set_start_text text_continue app
    else set_start_text text_start app in
  let start_state :=
    if TimerState_eqb state IDLE || TimerState_eqb state PAUSED
       || TimerState_eqb state FINISHED
    then normal else disabled in
  let stop_state :=
    if TimerState_eqb state RUNNING then normal else disabled in
  let app := set_start_btn start_state app in
  set_stop_btn stop_state app.

(** [int(var.get() or "0")] inside [try ... except ValueError], the
    fallback being zero. *)
Definition entry_value (text : string) : Z :=
  let text := if String.eqb text "" then "0" else text in
  match int_of_str text with
  | Some n => n
  | None => 0%Z
  end.

(** [FloatingTimerApp._apply_countdown] *)
Definition _apply_countdown (app : FloatingTimerApp) : FloatingTimerApp :=
  let hours := entry_value (_hours_var app) in
  let minutes := entry_value (_minutes_var app) in
  let seconds := entry_value (_seconds_var app) in
  let total :=
    (Z.max 0 hours * 3600 + Z.max 0 minutes * 60 + Z.max 0 seconds)%Z in
  let app := set_model (set_target_seconds total (model app)) app in
  if TimerMode_eqb (_mode (model app)) DOWN
     && (TimerState_eqb (_state (model app)) IDLE
         || TimerState_eqb (_state (model app)) FINISHED)
  then set_time_text
         (_format_hms (inject_Z (_target_seconds (model app)))) app
  else app.

(** [FloatingTimerApp._on_start] *)
Definition _on_start (now : Q) (app : FloatingTimerApp) : FloatingTimerApp :=
  let app := _stop_flash app in
  let app :=
    if TimerMode_eqb (_mode (model app)) DOWN then _apply_countdown app
    else app in
  if TimerMode_eqb (_mode (model app)) DOWN
     && (_target_seconds (model app) <=? 0)%Z
  then _sync_ui_from_model app
  else
    let app :=
      if TimerState_eqb (_state (model app)) PAUSED
      then set_model (resume now (model app)) app
      else set_model (start now (model app)) app in
    let app := _ensure_update_loop app in
    _sync_ui_from_model app.

(** [FloatingTimerApp._on_stop] *)
Definition _on_stop (now : Q) (app : FloatingTimerApp) : FloatingTimerApp :=
  let app := _stop_flash app in
  let app :=
    if TimerState_eqb (_state (model app)) RUNNING
    then _cancel_update_loop (set_model (pause now (model app)) app)
    else app in
  _sync_ui_from_model app.

(** [FloatingTimerApp._toggle_start_stop] *)
Definition _toggle_start_stop (now : Q) (app : FloatingTimerApp)
  : FloatingTimerApp :=
  if TimerState_eqb (_state (model app)) RUNNING then _on_stop now app
  else _on_start now app.

(** [FloatingTimerApp._on_reset] *)
Definition _on_reset (app : FloatingTimerApp) : FloatingTimerApp :=
  let app := _stop_flash app in
  let app := _cancel_update_loop app in
  let app := set_model (reset (model app)) app in
  _sync_ui_from_model app.

(** [FloatingTimerApp._on_mode_change] *)
Definition _on_mode_change (app : FloatingTimerApp) : FloatingTimerApp :=
  let mode :=
    if String.eqb (_mode_var app) (TimerMode_value UP) then UP else DOWN in
  let app := _stop_flash app in
  let app := _cancel_update_loop app in
  let app := set_model (set_mode mode (model app)) app in
  let app :=
    if TimerMode_eqb mode DOWN then _apply_countdown app else app in
  _sync_ui_from_model app.

(** [FloatingTimerApp._on_entry_return]; the returned ["break"] keeps the
    key from reaching the bindings of the root. *)
Definition _on_entry_return (app : FloatingTimerApp) : FloatingTimerApp :=
  _apply_countdown app.

(** [FloatingTimerApp._toggle_compact], on the attributes represented
    here: the flag, and the closing [_sync_ui_from_model]. *)
Definition _toggle_compact (app : FloatingTimerApp) : FloatingTimerApp :=
  let app := set_compact (negb (_compact app)) app in
  _sync_ui_from_model app.

(** [FloatingTimerApp._on_update] *)
Definition _on_update (now : Q) (app : FloatingTimerApp) : FloatingTimerApp :=
  let app := set_update_job None app in
  let '(snap, model') := snapshot now (model app) in
  let app := set_model model' app in
  let app :=
    if TimerMode_eqb (snap_mode snap) UP
    then set_time_text (_format_hms (elapsed_seconds snap)) app
    else set_time_text
           (_format_hms (or_zero (remaining_seconds snap))) app in
  if TimerMode_eqb (snap_mode snap) DOWN
     && TimerState_eqb (snap_state snap) FINISHED
  then _sync_ui_from_model (_start_flash app)
  else if TimerState_eqb (snap_state snap) RUNNING
       then _ensure_update_loop app
       else _sync_ui_from_model app.

(** [FloatingTimerApp.__init__]: a fresh Tk root, the attribute
    defaults, widgets in the state Tk creates them in, and the closing
    [_sync_ui_from_model]. *)
Definition FloatingTimerApp_init : FloatingTimerApp :=
  _sync_ui_from_model
    {| root := {| after_seq := 0; after_jobs := [] |};
       model := init;
       _update_job := None;
       _flash_job := None;
       _flash_remaining := 0;
       _time_text := "00:00:00";
       _mode_var := TimerMode_value (_mode init);
       _hours_var := "0";
       _minutes_var := "5";
       _seconds_var := "0";
       _start_text := text_start;
       _compact := false;
       container_bg := _bg;
       time_label_bg := _bg;
       hours_entry := normal;
       minutes_entry := normal;
       seconds_entry := normal;
       apply_btn := normal;
       start_btn := normal;
       stop_btn := normal |}.

(** What the Tk main loop delivers to the application. *)
Inductive event : Type :=
| PressStart (now : Q)
| PressStop (now : Q)
| PressReset
| PressApply
| SelectMode (mode : TimerMode)
| KeySpace (now : Q)
| KeyReturn
| KeyR
| EntryReturn
| EditHours (text : string)
| EditMinutes (text : string)
| EditSeconds (text : string)
| AfterFires (id : nat) (now : Q).

(** One turn of the main loop.  A disabled button does not run its
    command and a disabled entry is not edited; a radio button stores
    its value in [_mode_var] before its command runs; a pending [after]
    callback leaves the queue when it fires. *)
Definition handle (e : event) (app : FloatingTimerApp) : FloatingTimerApp :=
  match e with
  | PressStart now =>
      match start_btn app with
      | normal => _on_start now app
      | disabled => app
      end
  | PressStop now =>
      match stop_btn app with
      | normal => _on_stop now app
      | disabled => app
      end
  | PressReset => _on_reset app
  | PressApply =>
      match apply_btn app with
      | normal => _apply_countdown app
      | disabled => app
      end
  | SelectMode mode =>
      _on_mode_change (set_mode_var (TimerMode_value mode) app)
  | KeySpace now => _toggle_start_stop now app
  | KeyReturn => _toggle_compact app
  | KeyR => _on_reset app
  | EntryReturn => _on_entry_return app
  | EditHours text =>
      match hours_entry app with
      | normal => set_hours_var text app
      | disabled => app
      end
  | EditMinutes text =>
      match minutes_entry app with
      | normal => set_minutes_var text app
      | disabled => app
      end
  | EditSeconds text =>
      match seconds_entry app with
      | normal => set_seconds_var text app
      | disabled => app
      end
  | AfterFires id now =>
      match pending id (after_jobs (root app)) with
      | None => app
      | Some cb =>
          let app := set_root (after_cancel id (root app)) app in
          match cb with
          | OnUpdate => _on_update now app
          | FlashStep => _flash_step app
          end
      end
  end.

(** The application after a sequence of events, first event first. *)
Fixpoint handle_all (es : list event) (app : FloatingTimerApp)
  : FloatingTimerApp :=
  match es with
  | [] => app
  | e :: rest => handle_all rest (handle e app)
  end.

End Handlers.

Local Close Scope string_scope.

(** ** Vocabulary of the properties of the presentation layer *)

(** The [after] queue [r] holds exactly the callbacks whose identifiers
    are kept in the two handles [update_job] and [flash_job], and every
    kept identifier has been handed out by the root. *)
Definition recorded (r : Root) (update_job flash_job : option nat) : Prop :=
  (forall id cb,
      pending id (after_jobs r) = Some cb <->
      (cb = OnUpdate /\ update_job = Some id) \/
      (cb = FlashStep /\ flash_job = Some id)) /\
  (forall id,
      update_job = Some id \/ flash_job = Some id ->
      (id < after_seq r)%nat).

Definition jobs_recorded (app : FloatingTimerApp) : Prop :=
  recorded (root app) (_update_job app) (_flash_job app).

(** The polling is scheduled only while the model runs. *)
Definition polling_only_running (app : FloatingTimerApp) : Prop :=
  _update_job app <> None -> _state (model app) = RUNNING.

(** The flash is scheduled only on a finished count-down. *)
Definition flash_only_finished (app : FloatingTimerApp) : Prop :=
  _flash_job app <> None ->
  _state (model app) = FINISHED /\ _mode (model app) = DOWN.

(** The buttons, the entries and the text of the start button are the
    ones that go with the mode and the state of the model. *)
Definition controls_follow_model (app : FloatingTimerApp) : Prop :=
  let state := _state (model app) in
  let inputs :=
    match _mode (model app) with
    | UP => disabled
    | DOWN =>
        match state with
        | IDLE | FINISHED => normal
        | RUNNING | PAUSED => disabled
        end
    end in
  hours_entry app = inputs /\
  minutes_entry app = inputs /\
  seconds_entry app = inputs /\
  apply_btn app = inputs /\
  start_btn app =
    match state with
    | RUNNING => disabled
    | IDLE | PAUSED | FINISHED => normal
    end /\
  stop_btn app =
    match state with
    | RUNNING => normal
    | IDLE | PAUSED | FINISHED => disabled
    end /\
  _start_text app =
    match state with
    | PAUSED => text_continue
    | IDLE | RUNNING | FINISHED => text_start
    end.

(** What the time label shows while the model is idle. *)
Definition idle_display (app : FloatingTimerApp) : Prop :=
  _state (model app) = IDLE ->
  _time_text app =
    match _mode (model app) with
    | UP => "00:00:00"%string
    | DOWN => _format_hms (inject_Z (_target_seconds (model app)))
    end.

(** A reading of plain decimal numerals, to run the handlers on examples
    (the builtin [int] accepts more: surrounding blanks, a plus sign,
    underscores between digits). *)
Definition decimal_int_of_str (text : string) : option Z :=
  option_map Z.of_int (NilZero.int_of_string text).

(** The flash callback firing once, if it is scheduled. *)
Definition fire_flash (app : FloatingTimerApp) : FloatingTimerApp :=
  match _flash_job app with
  | Some id => handle decimal_int_of_str (AfterFires id 0) app
  | None => app
  end.

(** The flash callback firing [n] times in a row. *)
Fixpoint fire_flash_times (n : nat) (app : FloatingTimerApp)
  : FloatingTimerApp :=
  match n with
  | O => app
  | S n' => fire_flash_times n' (fire_flash app)
  end.

(** ** Elementary facts about the embedding *)

Lemma TimerMode_eqb_spec (a b : TimerMode) :
  reflect (a = b) (TimerMode_eqb a b).
Proof. destruct a, b; simpl; constructor; congruence. Qed.

Lemma TimerState_eqb_spec (a b : TimerState) :
  reflect (a = b) (TimerState_eqb a b).
Proof. destruct a, b; simpl; constructor; congruence. Qed.

(** The count-down branch of [snapshot] clamps exactly like [Qmax 0]. *)
Lemma clamp_is_Qmax (r : Q) :
  (if Qle_bool r 0 then 0 else r) = Qmax 0 r.
Proof.
  unfold Qmax, GenericMinMax.gmax.
  destruct (Qle_bool r 0) eqn:Hle.
  - apply Qle_bool_iff in Hle.
    destruct (0 ?= r) eqn:Hc; try reflexivity.
    apply Qlt_alt in Hc. lra.
  - destruct (0 ?= r) eqn:Hc; try reflexivity.
    + apply Qeq_alt in Hc.
      assert (Hr : r <= 0) by lra.
      apply Qle_bool_iff in Hr. congruence.
    + apply Qgt_alt in Hc.
      assert (Hr : r <= 0) by lra.
      apply Qle_bool_iff in Hr. congruence.
Qed.

(** The elapsed time a snapshot reports is [elapsed_at], in both modes. *)
Lemma snapshot_elapsed (now : Q) (self : TimerModel) :
  elapsed_seconds (fst (snapshot now self)) = elapsed_at now self.
Proof.
  unfold snapshot. destruct (_mode self); [reflexivity|].
  destruct (Qle_bool _ 0); reflexivity.
Qed.

(** A snapshot that does not finish the run leaves the model alone. *)
Lemma snapshot_model_cases (now : Q) (self : TimerModel) :
  snd (snapshot now self) = self \/
  (_state self = RUNNING /\ _mode self = DOWN /\
   inject_Z (_target_seconds self) - elapsed_at now self <= 0 /\
   snd (snapshot now self) =
     {| _mode := _mode self;
        _state := FINISHED;
        _target_seconds := _target_seconds self;
        _start_perf := None;
        _accumulated_elapsed := _accumulated_elapsed self |}).
Proof.
  unfold snapshot. destruct (_mode self) eqn:Hmode; [now left|].
  destruct (Qle_bool _ 0) eqn:Hle; [|now left].
  destruct (TimerState_eqb_spec (_state self) RUNNING) as [Hrun|Hrun];
    [|now left].
  right. apply Qle_bool_iff in Hle. simpl. auto.
Qed.

(** ** The invariant on [_start_perf] *)

Lemma start_perf_iff_running_step (o : op) (self : TimerModel) :
  start_perf_iff_running self -> start_perf_iff_running (step o self).
Proof.
  unfold start_perf_iff_running. intros [Hl Hr].
  destruct o as [mode|seconds|now|now|now| |now]; simpl.
  - unfold set_mode.
    destruct (TimerMode_eqb mode (_mode self)); simpl;
      [tauto | split; [congruence | discriminate]].
  - tauto.
  - unfold start.
    destruct (TimerState_eqb (_state self) RUNNING); simpl;
      [tauto | split; [reflexivity | discriminate]].
  - unfold pause.
    destruct (TimerState_eqb (_state self) RUNNING); simpl;
      [split; [congruence | discriminate] | tauto].
  - unfold resume.
    destruct (TimerState_eqb (_state self) PAUSED); simpl;
      [split; [reflexivity | discriminate] | tauto].
  - split; [congruence | discriminate].
  - destruct (snapshot_model_cases now self) as [Heq|(_ & _ & _ & Heq)];
      rewrite Heq; simpl; [tauto | split; [congruence | discriminate]].
Qed.

(** C4.  "[_start_perf] is not [None] if and only if the state is
    RUNNING" holds of a new model and is kept by every one of the seven
    operations, whatever their arguments. *)
Theorem start_perf_invariant :
  start_perf_iff_running init /\
  forall (o : op) (self : TimerModel),
    start_perf_iff_running self -> start_perf_iff_running (step o self).
Proof.
  split.
  - unfold start_perf_iff_running; simpl. split; [congruence | discriminate].
  - exact start_perf_iff_running_step.
Qed.

Lemma start_perf_invariant_witness :
  start_perf_iff_running init /\
  start_perf_iff_running (step (Snapshot 5) (step (Start 0) countdown5)).
Proof.
  split.
  - exact (proj1 start_perf_invariant).
  - apply (proj2 start_perf_invariant (Snapshot 5)).
    apply (proj2 start_perf_invariant (Start 0)).
    unfold start_perf_iff_running; simpl. split; [congruence | discriminate].
Defined.

(** The invariant along every call sequence played on a new model. *)
Lemma start_perf_iff_running_run (ops : list op) (self : TimerModel) :
  start_perf_iff_running self -> start_perf_iff_running (run ops self).
Proof.
  revert self. induction ops as [|o rest IH]; intros self Hinv; simpl.
  - exact Hinv.
  - apply IH, start_perf_iff_running_step, Hinv.
Qed.

(** ** Entering the Finished state *)




(** ** The mutators *)

(** C6.  [set_mode] with the current mode changes no attribute; with the
    other mode it stores the mode and performs the full reset from every
    prior state: the state is IDLE, [_start_perf] is [None], the
    accumulation is zero, and the target is kept. *)
Theorem set_mode_spec (mode : TimerMode) (self : TimerModel) :
  (mode = _mode self -> set_mode mode self = self) /\
  (mode <> _mode self ->
   set_mode mode self =
     {| _mode := mode;
        _state := IDLE;
        _target_seconds := _target_seconds self;
        _start_perf := None;
        _accumulated_elapsed := 0 |}).
Proof.
  unfold set_mode.
  destruct (TimerMode_eqb_spec mode (_mode self)) as [Heq|Hne]; split;
    intros H; try reflexivity; contradiction.
Qed.

Lemma set_mode_spec_witness :
  set_mode UP (start 1 init) = start 1 init /\
  set_mode DOWN (start 1 init) =
    {| _mode := DOWN;
       _state := IDLE;
       _target_seconds := 300;
       _start_perf := None;
       _accumulated_elapsed := 0 |}.
Proof.
  split.
  - apply (proj1 (set_mode_spec UP (start 1 init))). reflexivity.
  - apply (proj2 (set_mode_spec DOWN (start 1 init))). simpl. discriminate.
Defined.

(** C7.  [set_target_seconds] stores the clamped target and leaves mode,
    state and [_start_perf] alone; it zeroes the accumulation when the
    mode is count-down and the state is IDLE or FINISHED, and in every
    other case (in particular RUNNING and PAUSED) the accumulation is
    what it was. *)
Theorem set_target_seconds_frame (seconds : Z) (self : TimerModel) :
  let self' := set_target_seconds seconds self in
  _target_seconds self' = Z.max 0 seconds /\
  _mode self' = _mode self /\
  _state self' = _state self /\
  _start_perf self' = _start_perf self /\
  (_mode self = DOWN /\ (_state self = IDLE \/ _state self = FINISHED) ->
   _accumulated_elapsed self' = 0) /\
  (~ (_mode self = DOWN /\ (_state self = IDLE \/ _state self = FINISHED)) ->
   _accumulated_elapsed self' = _accumulated_elapsed self) /\
  (_state self = RUNNING \/ _state self = PAUSED ->
   _accumulated_elapsed self' = _accumulated_elapsed self).
Proof.
  simpl. repeat (split; [reflexivity|]). split; [|split].
  - intros [Hmode Hstate]. rewrite Hmode.
    destruct Hstate as [Hs|Hs]; rewrite Hs; reflexivity.
  - intros Hnot.
    destruct (_mode self), (_state self); simpl; try reflexivity;
      exfalso; apply Hnot; auto.
  - intros [Hs|Hs]; rewrite Hs; destruct (_mode self); reflexivity.
Qed.

Lemma set_target_seconds_frame_witness :
  _accumulated_elapsed (set_target_seconds 9 (snd (snapshot 7 (start 0 countdown5)))) = 0 /\
  _accumulated_elapsed
    (set_target_seconds 9 (pause 3 (start 0 countdown5))) =
  _accumulated_elapsed (pause 3 (start 0 countdown5)) /\
  _accumulated_elapsed (set_target_seconds 9 (pause 3 (start 0 init))) =
  _accumulated_elapsed (pause 3 (start 0 init)).
Proof.
  split; [|split].
  - destruct (set_target_seconds_frame 9 (snd (snapshot 7 (start 0 countdown5))))
      as (_ & _ & _ & _ & Hreset & _).
    apply Hreset. split; [reflexivity | right; reflexivity].
  - destruct (set_target_seconds_frame 9 (pause 3 (start 0 countdown5)))
      as (_ & _ & _ & _ & _ & _ & Hkeep).
    apply Hkeep. right. reflexivity.
  - destruct (set_target_seconds_frame 9 (pause 3 (start 0 init)))
      as (_ & _ & _ & _ & _ & Hkeep & _).
    apply Hkeep. intros [Hmode _]. discriminate.
Defined.

(** C8.  The mutators are functions defined on every model and every
    argument.  [set_target_seconds] stores a target that is never
    negative and is zero for a negative input; [start] on a Running
    model, [pause] on a model that is not Running and [resume] on a model
    that is not Paused return the model with every attribute as it
    was. *)
Theorem mutators_total (seconds : Z) (now : Q) (self : TimerModel) :
  (0 <= _target_seconds (set_target_seconds seconds self))%Z /\
  ((seconds < 0)%Z -> _target_seconds (set_target_seconds seconds self) = 0%Z) /\
  (_state self = RUNNING -> start now self = self) /\
  (_state self <> RUNNING -> pause now self = self) /\
  (_state self <> PAUSED -> resume now self = self).
Proof.
  split; [|split; [|split; [|split]]].
  - simpl. lia.
  - simpl. lia.
  - intros Hs. unfold start. rewrite Hs. reflexivity.
  - intros Hs. unfold pause.
    destruct (TimerState_eqb_spec (_state self) RUNNING);
      [contradiction | reflexivity].
  - intros Hs. unfold resume.
    destruct (TimerState_eqb_spec (_state self) PAUSED);
      [contradiction | reflexivity].
Qed.

Lemma mutators_total_witness :
  _target_seconds (set_target_seconds (-42) (start 0 init)) = 0%Z /\
  start 4 (start 0 init) = start 0 init /\
  pause 4 init = init /\
  resume 4 (start 0 init) = start 0 init.
Proof.
  split; [|split; [|split]].
  - destruct (mutators_total (-42) 0 (start 0 init)) as (_ & Hclamp & _).
    apply Hclamp. lia.
  - destruct (mutators_total 0 4 (start 0 init)) as (_ & _ & Hstart & _).
    apply Hstart. reflexivity.
  - destruct (mutators_total 0 4 init) as (_ & _ & _ & Hpause & _).
    apply Hpause. simpl. discriminate.
  - destruct (mutators_total 0 4 (start 0 init)) as (_ & _ & _ & _ & Hresume).
    apply Hresume. simpl. discriminate.
Defined.

(** C9.  [start] on a Paused model keeps the banked accumulation, sets
    [_start_perf] to [now] and the state to RUNNING, which is what
    [resume] does; [start] on an Idle or Finished model runs from an
    accumulation of zero. *)
Theorem start_spec (now : Q) (self : TimerModel) :
  (_state self = PAUSED ->
   start now self =
     {| _mode := _mode self;
        _state := RUNNING;
        _target_seconds := _target_seconds self;
        _start_perf := Some now;
        _accumulated_elapsed := _accumulated_elapsed self |} /\
   start now self = resume now self) /\
  (_state self = IDLE \/ _state self = FINISHED ->
   start now self =
     {| _mode := _mode self;
        _state := RUNNING;
        _target_seconds := _target_seconds self;
        _start_perf := Some now;
        _accumulated_elapsed := 0 |}).
Proof.
  split.
  - intros Hs. unfold start, resume. rewrite Hs. split; reflexivity.
  - intros [Hs|Hs]; unfold start; rewrite Hs; reflexivity.
Qed.

Lemma start_spec_witness :
  _accumulated_elapsed (start 9 (pause 3 (start 0 init))) =
  _accumulated_elapsed (pause 3 (start 0 init)) /\
  _accumulated_elapsed (start 9 (snd (snapshot 7 (start 0 countdown5)))) = 0.
Proof.
  split.
  - destruct (proj1 (start_spec 9 (pause 3 (start 0 init)))) as [Heq _].
    + reflexivity.
    + rewrite Heq. reflexivity.
  - rewrite (proj2 (start_spec 9 (snd (snapshot 7 (start 0 countdown5))))).
    + reflexivity.
    + right. reflexivity.
Defined.

(** What one call does to the mode and to the target. *)
Lemma step_mode (o : op) (self : TimerModel) :
  _mode (step o self) =
  match o with
  | SetMode mode => mode
  | _ => _mode self
  end.
Proof.
  destruct o as [mode|seconds|now|now|now| |now]; simpl; try reflexivity.
  - unfold set_mode.
    destruct (TimerMode_eqb_spec mode (_mode self)); [congruence | reflexivity].
  - unfold start. destruct (TimerState_eqb _ _); reflexivity.
  - unfold pause. destruct (TimerState_eqb _ _); reflexivity.
  - unfold resume. destruct (TimerState_eqb _ _); reflexivity.
  - destruct (snapshot_model_cases now self) as [Heq|(_ & _ & _ & Heq)];
      rewrite Heq; reflexivity.
Qed.

Lemma step_target_seconds (o : op) (self : TimerModel) :
  _target_seconds (step o self) =
  match o with
  | SetTargetSeconds seconds => Z.max 0 seconds
  | _ => _target_seconds self
  end.
Proof.
  destruct o as [mode|seconds|now|now|now| |now]; simpl; try reflexivity.
  - unfold set_mode. destruct (TimerMode_eqb _ _); reflexivity.
  - unfold start. destruct (TimerState_eqb _ _); reflexivity.
  - unfold pause. destruct (TimerState_eqb _ _); reflexivity.
  - unfold resume. destruct (TimerState_eqb _ _); reflexivity.
  - destruct (snapshot_model_cases now self) as [Heq|(_ & _ & _ & Heq)];
      rewrite Heq; reflexivity.
Qed.

(** The stored target is never negative, whatever calls are made on a
    new model. *)
Lemma target_seconds_nonneg (ops : list op) :
  forall self : TimerModel,
    (0 <= _target_seconds self)%Z ->
    (0 <= _target_seconds (run ops self))%Z.
Proof.
  induction ops as [|o rest IH]; intros self Hpos; simpl; [exact Hpos|].
  apply IH. rewrite step_target_seconds. destruct o; try exact Hpos. lia.
Qed.

(** C10.  Every call other than [set_mode] leaves the mode as it was and
    every call other than [set_target_seconds] leaves the target as it
    was; this covers [start], [pause], [resume], [reset] and
    [snapshot]. *)
Theorem mode_and_target_frame (o : op) (self : TimerModel) :
  ((forall mode, o <> SetMode mode) -> _mode (step o self) = _mode self) /\
  ((forall seconds, o <> SetTargetSeconds seconds) ->
   _target_seconds (step o self) = _target_seconds self).
Proof.
  split; intros Hop.
  - rewrite step_mode. destruct o as [mode| | | | | |]; try reflexivity.
    exfalso. exact (Hop mode eq_refl).
  - rewrite step_target_seconds.
    destruct o as [|seconds| | | | |]; try reflexivity.
    exfalso. exact (Hop seconds eq_refl).
Qed.

Lemma mode_and_target_frame_witness :
  _mode (step (Snapshot 7) (start 0 countdown5)) = DOWN /\
  _target_seconds (step (Snapshot 7) (start 0 countdown5)) = 5%Z.
Proof.
  split.
  - apply (proj1 (mode_and_target_frame (Snapshot 7) (start 0 countdown5))).
    intros mode. discriminate.
  - apply (proj2 (mode_and_target_frame (Snapshot 7) (start 0 countdown5))).
    intros seconds. discriminate.
Defined.

(** ** Auto-finish *)

(** What a later snapshot reports once a snapshot has finished the run:
    the state is FINISHED, but the elapsed time is the accumulation
    banked before the run, since the finishing call clears [_start_perf]
    without adding the running stretch to [_accumulated_elapsed] (as
    [pause] does). *)
Lemma snapshot_after_auto_finish (now later : Q) (self : TimerModel) :
  _state self = RUNNING ->
  _mode self = DOWN ->
  inject_Z (_target_seconds self) - elapsed_at now self <= 0 ->
  fst (snapshot later (snd (snapshot now self))) =
    {| snap_mode := DOWN;
       snap_state := FINISHED;
       elapsed_seconds := _accumulated_elapsed self;
       remaining_seconds :=
         Some (Qmax 0 (inject_Z (_target_seconds self)
                       - _accumulated_elapsed self)) |}.
Proof.
  intros Hrun Hmode Hle. apply Qle_bool_iff in Hle.
  rewrite <- clamp_is_Qmax.
  assert (Hsnd : snd (snapshot now self) =
                 {| _mode := DOWN;
                    _state := FINISHED;
                    _target_seconds := _target_seconds self;
                    _start_perf := None;
                    _accumulated_elapsed := _accumulated_elapsed self |}).
  { unfold snapshot. rewrite Hmode, Hle, Hrun. reflexivity. }
  rewrite Hsnd. clear Hle Hsnd. unfold snapshot, elapsed_at. simpl.
  destruct (Qle_bool _ 0); reflexivity.
Qed.

(** C2.  Count-down with a target of five seconds, [start(0)]: the
    snapshot at 5 finds the model Running, reports elapsed 5 and
    remaining 0, sets the state to FINISHED and clears [_start_perf].
    The snapshot at 10, with no mutator call in between, reports the
    state FINISHED with elapsed 0 and remaining 5, and not the values of
    the finishing snapshot. *)
Theorem auto_finish_not_frozen :
  let running := start 0 countdown5 in
  let finishing := snapshot 5 running in
  let later := snapshot 10 (snd finishing) in
  _state running = RUNNING /\
  fst finishing =
    {| snap_mode := DOWN;
       snap_state := FINISHED;
       elapsed_seconds := 5;
       remaining_seconds := Some 0 |} /\
  _start_perf (snd finishing) = None /\
  fst later =
    {| snap_mode := DOWN;
       snap_state := FINISHED;
       elapsed_seconds := 0;
       remaining_seconds := Some 5 |} /\
  snd later = snd finishing.
Proof. vm_compute. repeat split. Qed.

(** ** The display format *)

Lemma string_length_append (a b : string) :
  String.length (a ++ b) = (String.length a + String.length b)%nat.
Proof. induction a as [|c a IH]; simpl; [reflexivity | now rewrite IH]. Qed.

Lemma string_append_inj (a a' b b' : string) :
  String.length a = String.length a' ->
  (a ++ b = a' ++ b')%string ->
  a = a' /\ b = b'.
Proof.
  revert a'. induction a as [|c a IH]; intros [|c' a'] Hlen Heq;
    simpl in *; try discriminate.
  - split; [reflexivity | assumption].
  - injection Heq as -> Heq. injection Hlen as Hlen.
    destruct (IH a' Hlen Heq) as [-> ->]. split; reflexivity.
Qed.

(** [int] of a whole number is the number. *)
Lemma int_of_float_inject_Z (z : Z) : int_of_float (inject_Z z) = z.
Proof. unfold int_of_float; simpl. apply Z.quot_1_r. Qed.

(** Truncation and [Qfloor] differ on negative numbers only, where the
    clamp of [_format_hms] hides the difference. *)
Lemma clamp_int_of_float (t : Q) :
  Z.max 0 (int_of_float t) = Z.max 0 (Qfloor t).
Proof.
  destruct t as [n d]. unfold int_of_float, Qfloor; simpl.
  destruct (Z.le_gt_cases 0 n) as [Hn|Hn].
  - rewrite Z.quot_div_nonneg by lia. reflexivity.
  - assert (Hq : (Z.quot n (Z.pos d) <= 0)%Z).
    { rewrite <- (Z.opp_involutive n), Z.quot_opp_l by lia.
      assert (0 <= Z.quot (- n) (Z.pos d))%Z by (apply Z.quot_pos; lia).
      lia. }
    assert (Hf : (n / Z.pos d < 0)%Z) by (apply Z.div_lt_upper_bound; lia).
    lia.
Qed.

(** The decimal digits of a number that is not negative read back as the
    number, with or without the zero [format_02d] may put in front. *)
Lemma to_int_nonneg (n : Z) :
  (0 <= n)%Z -> exists d, Z.to_int n = Decimal.Pos d /\ d <> Decimal.Nil.
Proof.
  intros Hn. destruct n as [|p|p]; [| |lia].
  - exists Decimal.zero. split; [reflexivity | discriminate].
  - exists (Pos.to_uint p). split; [reflexivity|].
    apply DecimalPos.Unsigned.to_uint_nonnil.
Qed.

Lemma read_format_02d (n : Z) :
  (0 <= n)%Z ->
  option_map Z.of_int (NilZero.int_of_string (format_02d n)) = Some n.
Proof.
  intros Hn. destruct (to_int_nonneg n Hn) as (d & Hd & Hnil).
  assert (Hback : Z.of_int (Decimal.Pos d) = n)
    by (rewrite <- Hd; apply DecimalZ.of_to).
  unfold format_02d, str_of_int.
  destruct (String.length _ <? 2)%nat.
  - rewrite Hd. simpl NilZero.string_of_int.
    assert (Hs : NilZero.string_of_uint d = NilEmpty.string_of_uint d)
      by (destruct d; [contradiction | reflexivity ..]).
    rewrite Hs. simpl. rewrite NilEmpty.usu. simpl.
    rewrite <- Hback. reflexivity.
  - rewrite NilZero.isi.
    + simpl. f_equal. apply DecimalZ.of_to.
    + rewrite Hd. intros [= ->]. contradiction.
    + rewrite Hd. discriminate.
Qed.

Lemma format_02d_inj (n n' : Z) :
  (0 <= n)%Z -> (0 <= n')%Z -> format_02d n = format_02d n' -> n = n'.
Proof.
  intros Hn Hn' Heq.
  pose proof (read_format_02d n Hn) as H1.
  pose proof (read_format_02d n' Hn') as H2.
  rewrite Heq in H1. congruence.
Qed.

(** Numbers below one hundred print on exactly two characters. *)
Lemma format_02d_length_2 (n : Z) :
  (0 <= n < 100)%Z -> String.length (format_02d n) = 2%nat.
Proof.
  intros Hn.
  assert (Hall : forallb
            (fun k => Nat.eqb (String.length (format_02d (Z.of_nat k))) 2)
            (seq 0 100) = true) by (vm_compute; reflexivity).
  rewrite forallb_forall in Hall.
  specialize (Hall (Z.to_nat n)).
  rewrite Z2Nat.id in Hall by lia.
  apply Nat.eqb_eq, Hall, in_seq. lia.
Qed.

(** Every number prints on at least two characters. *)
Lemma format_02d_length_min (n : Z) :
  (2 <= String.length (format_02d n))%nat.
Proof.
  unfold format_02d.
  destruct (String.length (str_of_int n) <? 2)%nat eqn:Hlt.
  - assert (Hne : (1 <= String.length (str_of_int n))%nat).
    { unfold str_of_int.
      destruct (Z.to_int n) as [d|d]; simpl.
      - destruct d; simpl; lia.
      - lia. }
    simpl. lia.
  - apply Nat.ltb_ge in Hlt. exact Hlt.
Qed.

(** The three printed numbers determine the number of seconds. *)
Lemma hms_fields_spec (seconds : Z) :
  (0 <= seconds)%Z ->
  let '(h, m, s) := hms_fields seconds in
  (seconds = h * 3600 + m * 60 + s /\ 0 <= h /\ 0 <= m < 60 /\ 0 <= s < 60)%Z.
Proof.
  intros Hs. unfold hms_fields. Z.div_mod_to_equations. lia.
Qed.

Lemma hms_fields_of_parts (h m s : Z) :
  (0 <= h)%Z -> (0 <= m < 60)%Z -> (0 <= s < 60)%Z ->
  hms_fields (h * 3600 + m * 60 + s) = (h, m, s).
Proof.
  intros Hh Hm Hsec. unfold hms_fields.
  repeat f_equal; Z.div_mod_to_equations; lia.
Qed.

Lemma format_hms_unfold (t : Q) :
  _format_hms t =
  (let '(h, m, s) := hms_fields (Z.max 0 (int_of_float t)) in
   format_02d h ++ ":" ++ format_02d m ++ ":" ++ format_02d s)%string.
Proof. reflexivity. Qed.

Lemma format_hms_floor (t : Q) :
  _format_hms t = _format_hms (inject_Z (Z.max 0 (Qfloor t))).
Proof.
  rewrite !format_hms_unfold, int_of_float_inject_Z, clamp_int_of_float.
  rewrite (Z.max_r 0 (Z.max 0 (Qfloor t))) by lia. reflexivity.
Qed.

(** X1.  [_format_hms] shows whole seconds only: the text for [t] is the
    text for the integer part of [t], and for zero when [t] is
    negative. *)
Theorem format_hms_whole_seconds (t : Q) :
  _format_hms t = _format_hms (inject_Z (Z.max 0 (Qfloor t))).
Proof. apply format_hms_floor. Qed.

(** X2.  Every time below one second, negative times included, is shown
    as [00:00:00]. *)
Theorem format_hms_below_one (t : Q) :
  t < 1 -> _format_hms t = "00:00:00"%string.
Proof.
  intros Ht. rewrite format_hms_floor.
  assert (Hfloor : (Qfloor t < 1)%Z).
  { destruct (Z.lt_ge_cases (Qfloor t) 1) as [Hlt|Hge]; [exact Hlt|].
    exfalso. pose proof (Qfloor_le t) as Hle.
    assert (H1 : inject_Z 1 <= inject_Z (Qfloor t))
      by (rewrite <- Zle_Qle; exact Hge).
    change (inject_Z 1) with 1 in H1. lra. }
  replace (Z.max 0 (Qfloor t)) with 0%Z by lia. reflexivity.
Qed.

Lemma format_hms_below_one_witness :
  _format_hms (-(7 # 2)) = "00:00:00"%string /\
  _format_hms (999 # 1000) = "00:00:00"%string.
Proof.
  split; apply format_hms_below_one; reflexivity.
Defined.

Lemma format_hms_parts (h m s : Z) :
  (0 <= h)%Z -> (0 <= m < 60)%Z -> (0 <= s < 60)%Z ->
  _format_hms (inject_Z (h * 3600 + m * 60 + s)) =
  (format_02d h ++ ":" ++ format_02d m ++ ":" ++ format_02d s)%string.
Proof.
  intros Hh Hm Hs.
  rewrite format_hms_unfold, int_of_float_inject_Z.
  rewrite Z.max_r by lia.
  rewrite hms_fields_of_parts by assumption. reflexivity.
Qed.

(** X3.  A whole number of seconds made of [h] hours, [m] minutes below
    sixty and [s] seconds below sixty is shown as these three numbers,
    each on at least two digits, separated by colons. *)
Theorem format_hms_of_parts (h m s : Z) :
  (0 <= h)%Z -> (0 <= m < 60)%Z -> (0 <= s < 60)%Z ->
  _format_hms (inject_Z (h * 3600 + m * 60 + s)) =
  (format_02d h ++ ":" ++ format_02d m ++ ":" ++ format_02d s)%string.
Proof. apply format_hms_parts. Qed.

Lemma format_hms_of_parts_witness :
  _format_hms (inject_Z (1 * 3600 + 2 * 60 + 3)) = "01:02:03"%string.
Proof.
  rewrite (format_hms_of_parts 1 2 3) by lia. reflexivity.
Defined.

(** X4.  The text has at least eight characters, and exactly eight for
    every time below one hundred hours. *)
Theorem format_hms_length (t : Q) :
  (8 <= String.length (_format_hms t))%nat /\
  (t < 360000 -> String.length (_format_hms t) = 8%nat).
Proof.
  rewrite format_hms_floor, format_hms_unfold, int_of_float_inject_Z.
  rewrite (Z.max_r 0 (Z.max 0 (Qfloor t))) by lia.
  pose proof (hms_fields_spec (Z.max 0 (Qfloor t)) ltac:(lia)) as Hspec.
  destruct (hms_fields (Z.max 0 (Qfloor t))) as [[h m] s].
  destruct Hspec as (Hsum & Hh & Hm & Hs).
  rewrite !string_length_append.
  rewrite (format_02d_length_2 m), (format_02d_length_2 s) by lia.
  pose proof (format_02d_length_min h) as Hmin.
  split.
  - simpl. lia.
  - intros Ht.
    assert (Hfloor : (Qfloor t < 360000)%Z).
    { destruct (Z.lt_ge_cases (Qfloor t) 360000) as [Hlt|Hge]; [exact Hlt|].
      exfalso. pose proof (Qfloor_le t) as Hle.
      assert (H1 : inject_Z 360000 <= inject_Z (Qfloor t))
        by (rewrite <- Zle_Qle; exact Hge).
      change (inject_Z 360000) with 360000 in H1. lra. }
    rewrite (format_02d_length_2 h) by lia. reflexivity.
Qed.

Lemma format_hms_length_witness :
  String.length (_format_hms (359999 + (1 # 2))) = 8%nat.
Proof.
  apply (format_hms_length (359999 + (1 # 2))). reflexivity.
Defined.

(** X5.  Two times get the same text exactly when they have the same
    whole number of seconds after clamping at zero: the display never
    merges two different second counts. *)
Theorem format_hms_injective (a b : Q) :
  _format_hms a = _format_hms b <->
  Z.max 0 (int_of_float a) = Z.max 0 (int_of_float b).
Proof.
  split; [|intros Heq; rewrite !format_hms_unfold, Heq; reflexivity].
  rewrite !format_hms_unfold.
  pose proof (hms_fields_spec (Z.max 0 (int_of_float a)) ltac:(lia)) as Ha.
  pose proof (hms_fields_spec (Z.max 0 (int_of_float b)) ltac:(lia)) as Hb.
  destruct (hms_fields (Z.max 0 (int_of_float a))) as [[h m] s].
  destruct (hms_fields (Z.max 0 (int_of_float b))) as [[h' m'] s'].
  destruct Ha as (Ha & Hh & Hm & Hs). destruct Hb as (Hb & Hh' & Hm' & Hs').
  intros Heq.
  assert (Hlen : String.length (format_02d h) = String.length (format_02d h')).
  { apply (f_equal String.length) in Heq.
    rewrite !string_length_append in Heq.
    rewrite (format_02d_length_2 m), (format_02d_length_2 s),
      (format_02d_length_2 m'), (format_02d_length_2 s') in Heq by lia.
    simpl in Heq. lia. }
  destruct (string_append_inj _ _ _ _ Hlen Heq) as [Eh Heq1].
  injection Heq1 as Heq1.
  assert (Hlen1 : String.length (format_02d m) = String.length (format_02d m'))
    by (rewrite !format_02d_length_2 by lia; reflexivity).
  destruct (string_append_inj _ _ _ _ Hlen1 Heq1) as [Em Heq2].
  injection Heq2 as Es.
  apply format_02d_inj in Eh, Em, Es; try lia.
Qed.

Lemma format_hms_injective_witness :
  _format_hms (7 # 2) = _format_hms 3.
Proof.
  apply (proj2 (format_hms_injective (7 # 2) 3)). reflexivity.
Defined.

(** ** More on the model *)

(** X6.  [pause(t)] freezes the clock at [t]: whatever the model, a
    snapshot taken after the call, at any time, reports the elapsed time
    a snapshot at [t] would have reported just before it. *)
Theorem pause_freezes_elapsed (t now : Q) (self : TimerModel) :
  elapsed_seconds (fst (snapshot now (pause t self))) =
  elapsed_seconds (fst (snapshot t self)).
Proof.
  rewrite !snapshot_elapsed. unfold pause, elapsed_at.
  destruct (_state self) eqn:Hs; simpl; rewrite ?Hs; reflexivity.
Qed.

(** ** The presentation layer *)

(** *** The [after] queue *)

Lemma pending_after_cancel (id id' : nat) (r : Root) :
  pending id' (after_jobs (after_cancel id r)) =
  if Nat.eqb id' id then None else pending id' (after_jobs r).
Proof.
  unfold after_cancel; simpl.
  induction (after_jobs r) as [|[k cb] rest IH]; simpl.
  - destruct (Nat.eqb id' id); reflexivity.
  - destruct (Nat.eqb_spec k id) as [->|Hk]; simpl.
    + rewrite IH. destruct (Nat.eqb_spec id' id) as [->|Hid]; [reflexivity|].
      destruct (Nat.eqb_spec id id'); [congruence | reflexivity].
    + rewrite IH. destruct (Nat.eqb_spec k id') as [->|Hk'].
      * destruct (Nat.eqb_spec id' id); [congruence | reflexivity].
      * reflexivity.
Qed.

Lemma pending_after (cb : callback) (id' : nat) (r : Root) :
  pending id' (after_jobs (snd (after cb r))) =
  if Nat.eqb (after_seq r) id' then Some cb
  else pending id' (after_jobs r).
Proof. reflexivity. Qed.

(** *** What the helpers of the handlers leave alone *)

Lemma sync_frame (app : FloatingTimerApp) :
  root (_sync_ui_from_model app) = root app /\
  model (_sync_ui_from_model app) = model app /\
  _update_job (_sync_ui_from_model app) = _update_job app /\
  _flash_job (_sync_ui_from_model app) = _flash_job app /\
  _flash_remaining (_sync_ui_from_model app) = _flash_remaining app /\
  container_bg (_sync_ui_from_model app) = container_bg app /\
  time_label_bg (_sync_ui_from_model app) = time_label_bg app.
Proof.
  unfold _sync_ui_from_model.
  destruct (_mode (model app)), (_state (model app)); simpl;
    repeat split; reflexivity.
Qed.

Lemma sync_controls (app : FloatingTimerApp) :
  controls_follow_model (_sync_ui_from_model app).
Proof.
  unfold controls_follow_model.
  destruct (sync_frame app) as (_ & -> & _).
  unfold _sync_ui_from_model.
  destruct (_mode (model app)), (_state (model app)); simpl;
    repeat split; reflexivity.
Qed.

Lemma sync_idle_display (app : FloatingTimerApp) :
  idle_display (_sync_ui_from_model app).
Proof.
  unfold idle_display.
  destruct (sync_frame app) as (_ & -> & _).
  unfold _sync_ui_from_model. intros Hidle. rewrite Hidle.
  destruct (_mode (model app)); reflexivity.
Qed.

Lemma snapshot_reads_model (now : Q) (self : TimerModel) :
  snap_mode (fst (snapshot now self)) = _mode self /\
  snap_state (fst (snapshot now self)) = _state (snd (snapshot now self)).
Proof.
  unfold snapshot. destruct (_mode self) eqn:Hmode; simpl; [now split|].
  destruct (Qle_bool _ 0); simpl; [|now split].
  destruct (TimerState_eqb (_state self) RUNNING); simpl; now split.
Qed.

(** A snapshot that reports RUNNING has left the model as it was. *)
Lemma snapshot_running_unchanged (now : Q) (self : TimerModel) :
  snap_state (fst (snapshot now self)) = RUNNING ->
  snd (snapshot now self) = self.
Proof.
  intros Hrun. destruct (snapshot_reads_model now self) as [_ Hstate].
  rewrite Hstate in Hrun.
  destruct (snapshot_model_cases now self) as [Heq|(_ & _ & _ & Heq)];
    [exact Heq | rewrite Heq in Hrun; discriminate].
Qed.

Lemma apply_countdown_frame (int_of_str : string -> option Z)
    (app : FloatingTimerApp) :
  let app' := _apply_countdown int_of_str app in
  root app' = root app /\
  _update_job app' = _update_job app /\
  _flash_job app' = _flash_job app /\
  _state (model app') = _state (model app) /\
  _mode (model app') = _mode (model app).
Proof.
  unfold _apply_countdown; simpl.
  destruct (TimerMode_eqb _ DOWN && _); simpl; repeat split; reflexivity.
Qed.

(** Unfolding of the handlers down to the attributes, for goals that only
    compare attributes before and after. *)
Ltac unfold_handlers :=
  unfold _on_start, _on_stop, _toggle_start_stop, _on_reset,
    _on_mode_change, _on_entry_return, _toggle_compact,
    _stop_flash, _cancel_update_loop, _ensure_update_loop, _start_flash,
    _flash_step, _apply_countdown in *.

Lemma apply_countdown_controls (int_of_str : string -> option Z)
    (app : FloatingTimerApp) :
  controls_follow_model app ->
  controls_follow_model (_apply_countdown int_of_str app).
Proof.
  unfold controls_follow_model, _apply_countdown; simpl.
  destruct (TimerMode_eqb _ DOWN && _); simpl; intros H; exact H.
Qed.

Lemma flash_step_controls (app : FloatingTimerApp) :
  controls_follow_model app -> controls_follow_model (_flash_step app).
Proof.
  unfold controls_follow_model, _flash_step; simpl.
  destruct (_flash_remaining app <=? 0)%Z; simpl; intros H; exact H.
Qed.

Lemma on_update_controls (now : Q) (app : FloatingTimerApp) :
  controls_follow_model app -> controls_follow_model (_on_update now app).
Proof.
  intros H. unfold _on_update. cbv zeta.
  change (model (set_update_job None app)) with (model app).
  destruct (snapshot now (model app)) as [snap model'] eqn:Hsnap.
  destruct (TimerMode_eqb (snap_mode snap) DOWN
            && TimerState_eqb (snap_state snap) FINISHED);
    [apply sync_controls|].
  destruct (TimerState_eqb_spec (snap_state snap) RUNNING) as [Hrun|Hrun];
    [|apply sync_controls].
  assert (Hmodel : model' = model app).
  { change model' with (snd (snap, model')). rewrite <- Hsnap.
    apply snapshot_running_unchanged. rewrite Hsnap. exact Hrun. }
  subst model'.
  unfold controls_follow_model, _ensure_update_loop in *; simpl.
  destruct (TimerMode_eqb (snap_mode snap) UP); simpl; exact H.
Qed.

(** X9.  After the constructor and after every event the buttons, the
    entries and the text of the start button agree with the model: the
    stop button is enabled exactly while the model runs and the start
    button exactly while it does not, the entries and the apply button
    exactly for an idle or finished count-down, and the start button
    reads "continue" exactly while the model is paused. *)
Theorem controls_always_follow_model (int_of_str : string -> option Z) :
  controls_follow_model FloatingTimerApp_init /\
  forall (e : event) (app : FloatingTimerApp),
    controls_follow_model app ->
    controls_follow_model (handle int_of_str e app).
Proof.
  split; [apply sync_controls|].
  intros e app H.
  destruct e as [now|now| | |mode|now| | | |text|text|text|id now]; simpl.
  - destruct (start_btn app); [|exact H].
    unfold _on_start. destruct (_ && _); apply sync_controls.
  - destruct (stop_btn app); [apply sync_controls | exact H].
  - apply sync_controls.
  - destruct (apply_btn app); [now apply apply_countdown_controls | exact H].
  - apply sync_controls.
  - unfold _toggle_start_stop. destruct (TimerState_eqb _ RUNNING).
    + apply sync_controls.
    + unfold _on_start. destruct (_ && _); apply sync_controls.
  - apply sync_controls.
  - apply sync_controls.
  - now apply apply_countdown_controls.
  - destruct (hours_entry app) eqn:Hw; exact H.
  - destruct (minutes_entry app) eqn:Hw; exact H.
  - destruct (seconds_entry app) eqn:Hw; exact H.
  - destruct (pending id _) as [[|]|]; [| |exact H].
    + apply on_update_controls. exact H.
    + apply flash_step_controls. exact H.
Qed.

Lemma controls_always_follow_model_witness :
  controls_follow_model
    (handle (fun _ => None) (PressStart 0) FloatingTimerApp_init).
Proof.
  apply (proj2 (controls_always_follow_model (fun _ => None))).
  apply (proj1 (controls_always_follow_model (fun _ => None))).
Defined.

Lemma apply_countdown_idle_display (int_of_str : string -> option Z)
    (app : FloatingTimerApp) :
  idle_display app -> idle_display (_apply_countdown int_of_str app).
Proof.
  unfold idle_display, _apply_countdown; simpl.
  destruct (_mode (model app)) eqn:Hm, (_state (model app)) eqn:Hs; simpl;
    rewrite ?Hm, ?Hs; simpl; intros H Hidle; try discriminate; auto.
Qed.

Lemma on_update_idle_display (now : Q) (app : FloatingTimerApp) :
  idle_display (_on_update now app).
Proof.
  unfold _on_update. cbv zeta.
  change (model (set_update_job None app)) with (model app).
  destruct (snapshot now (model app)) as [snap model'] eqn:Hsnap.
  destruct (TimerMode_eqb (snap_mode snap) DOWN
            && TimerState_eqb (snap_state snap) FINISHED);
    [apply sync_idle_display|].
  destruct (TimerState_eqb_spec (snap_state snap) RUNNING) as [Hrun|Hrun];
    [|apply sync_idle_display].
  destruct (snapshot_reads_model now (model app)) as [_ Hstate].
  rewrite Hsnap in Hstate; simpl in Hstate.
  unfold idle_display, _ensure_update_loop; simpl.
  destruct (TimerMode_eqb (snap_mode snap) UP); simpl;
    intros Hidle; congruence.
Qed.

(** X10.  After the constructor and after every event, while the model
    is idle the time label shows [00:00:00] in count-up mode and the
    configured target in count-down mode. *)
Theorem idle_display_always (int_of_str : string -> option Z) :
  idle_display FloatingTimerApp_init /\
  forall (e : event) (app : FloatingTimerApp),
    idle_display app -> idle_display (handle int_of_str e app).
Proof.
  split; [apply sync_idle_display|].
  intros e app H.
  destruct e as [now|now| | |mode|now| | | |text|text|text|id now]; simpl.
  - destruct (start_btn app); [|exact H].
    unfold _on_start. destruct (_ && _); apply sync_idle_display.
  - destruct (stop_btn app); [apply sync_idle_display | exact H].
  - apply sync_idle_display.
  - destruct (apply_btn app);
      [now apply apply_countdown_idle_display | exact H].
  - apply sync_idle_display.
  - unfold _toggle_start_stop. destruct (TimerState_eqb _ RUNNING).
    + apply sync_idle_display.
    + unfold _on_start. destruct (_ && _); apply sync_idle_display.
  - apply sync_idle_display.
  - apply sync_idle_display.
  - now apply apply_countdown_idle_display.
  - destruct (hours_entry app); exact H.
  - destruct (minutes_entry app); exact H.
  - destruct (seconds_entry app); exact H.
  - destruct (pending id _) as [[|]|]; [| |exact H].
    + apply on_update_idle_display.
    + unfold idle_display, _flash_step in *; simpl.
      destruct (_flash_remaining app <=? 0)%Z; simpl; exact H.
Qed.

Lemma idle_display_always_witness :
  idle_display
    (handle (fun _ => Some 7%Z) (SelectMode DOWN) FloatingTimerApp_init).
Proof.
  apply (proj2 (idle_display_always (fun _ => Some 7%Z))).
  apply (proj1 (idle_display_always (fun _ => Some 7%Z))).
Defined.

(** *** Scheduling *)

Lemma stop_flash_frame (app : FloatingTimerApp) :
  model (_stop_flash app) = model app /\
  _update_job (_stop_flash app) = _update_job app /\
  _flash_job (_stop_flash app) = None.
Proof.
  unfold _stop_flash. destruct (_flash_job app); simpl; repeat split.
Qed.

Lemma cancel_update_loop_frame (app : FloatingTimerApp) :
  model (_cancel_update_loop app) = model app /\
  _update_job (_cancel_update_loop app) = None /\
  _flash_job (_cancel_update_loop app) = _flash_job app.
Proof.
  unfold _cancel_update_loop.
  destruct (_update_job app) eqn:Hjob; simpl; repeat split; assumption.
Qed.

Lemma ensure_update_loop_frame (app : FloatingTimerApp) :
  model (_ensure_update_loop app) = model app /\
  _flash_job (_ensure_update_loop app) = _flash_job app.
Proof.
  unfold _ensure_update_loop.
  destruct (_update_job app); simpl; repeat split.
Qed.

Lemma flash_step_frame (app : FloatingTimerApp) :
  model (_flash_step app) = model app /\
  _update_job (_flash_step app) = _update_job app.
Proof.
  unfold _flash_step; simpl.
  destruct (_flash_remaining app <=? 0)%Z; simpl; repeat split.
Qed.

Lemma start_flash_frame (app : FloatingTimerApp) :
  model (_start_flash app) = model app /\
  _update_job (_start_flash app) = _update_job app.
Proof.
  unfold _start_flash. destruct (_flash_job app); [now split|].
  apply (flash_step_frame (set_flash_remaining 8 app)).
Qed.

(** [_on_start] either leaves the state of the model as it was and
    schedules nothing, or leaves the model running. *)
Lemma on_start_state (int_of_str : string -> option Z) (now : Q)
    (app : FloatingTimerApp) :
  let app' := _on_start int_of_str now app in
  (_state (model app') = _state (model app) /\
   _update_job app' = _update_job app) \/
  _state (model app') = RUNNING.
Proof.
  unfold _on_start. cbv zeta.
  set (app1 := if TimerMode_eqb _ DOWN then _ else _).
  assert (H1 : _state (model app1) = _state (model app) /\
               _update_job app1 = _update_job app).
  { subst app1. destruct (stop_flash_frame app) as (Hm & Hu & _).
    destruct (TimerMode_eqb _ DOWN).
    - destruct (apply_countdown_frame int_of_str (_stop_flash app))
        as (_ & -> & _ & -> & _).
      rewrite Hm, Hu. now split.
    - rewrite Hm, Hu. now split. }
  destruct (_ && _).
  - left. destruct (sync_frame app1) as (_ & -> & -> & _). exact H1.
  - right.
    match goal with
    | |- context [_sync_ui_from_model ?a] =>
        destruct (sync_frame a) as (_ & -> & _)
    end.
    match goal with
    | |- context [_ensure_update_loop ?a] =>
        destruct (ensure_update_loop_frame a) as (-> & _)
    end.
    destruct (TimerState_eqb_spec (_state (model app1)) PAUSED) as [Hp|Hp];
      simpl.
    + unfold resume. rewrite Hp. reflexivity.
    + unfold start.
      destruct (TimerState_eqb_spec (_state (model app1)) RUNNING);
        [assumption | reflexivity].
Qed.

(** The queue and the handles under [after] and [after_cancel]. *)
Lemma recorded_pending (r : Root) (u f : option nat) (id : nat)
    (cb : callback) :
  recorded r u f ->
  pending id (after_jobs r) = Some cb ->
  match cb with
  | OnUpdate => u = Some id
  | FlashStep => f = Some id
  end.
Proof.
  intros [Hjobs _] Hp. apply Hjobs in Hp.
  destruct cb, Hp as [[Hcb Hid]|[Hcb Hid]]; congruence.
Qed.

Lemma recorded_cancel_update (r : Root) (f : option nat) (id : nat) :
  recorded r (Some id) f -> recorded (after_cancel id r) None f.
Proof.
  intros [Hjobs Hbound]. split.
  - intros id' cb. rewrite pending_after_cancel.
    destruct (Nat.eqb_spec id' id) as [->|Hne].
    + split; [discriminate|].
      intros [[_ [=]]|[-> Hf]].
      assert (Hu : pending id (after_jobs r) = Some OnUpdate)
        by (apply Hjobs; left; auto).
      assert (Hfl : pending id (after_jobs r) = Some FlashStep)
        by (apply Hjobs; right; auto).
      congruence.
    + rewrite Hjobs. split.
      * intros [[_ [= Heq]]|H]; [congruence | right; exact H].
      * intros [[_ [=]]|H]. right; exact H.
  - intros id' [[=]|Hf]. apply Hbound. right; exact Hf.
Qed.

Lemma recorded_cancel_flash (r : Root) (u : option nat) (id : nat) :
  recorded r u (Some id) -> recorded (after_cancel id r) u None.
Proof.
  intros [Hjobs Hbound]. split.
  - intros id' cb. rewrite pending_after_cancel.
    destruct (Nat.eqb_spec id' id) as [->|Hne].
    + split; [discriminate|].
      intros [[-> Hu]|[_ [=]]].
      assert (Hup : pending id (after_jobs r) = Some OnUpdate)
        by (apply Hjobs; left; auto).
      assert (Hfl : pending id (after_jobs r) = Some FlashStep)
        by (apply Hjobs; right; auto).
      congruence.
    + rewrite Hjobs. split.
      * intros [H|[_ [= Heq]]]; [left; exact H | congruence].
      * intros [H|[_ [=]]]. left; exact H.
  - intros id' [Hu|[=]]. apply Hbound. left; exact Hu.
Qed.

Lemma recorded_after_update (r : Root) (f : option nat) :
  recorded r None f ->
  recorded (snd (after OnUpdate r)) (Some (after_seq r)) f.
Proof.
  intros [Hjobs Hbound]. split.
  - intros id' cb. rewrite pending_after.
    destruct (Nat.eqb_spec (after_seq r) id') as [<-|Hne].
    + split.
      * intros [= <-]. left; auto.
      * intros [[-> _]|[_ Hf]]; [reflexivity|].
        assert (after_seq r < after_seq r)%nat by (apply Hbound; auto). lia.
    + rewrite Hjobs. split.
      * intros [[_ [=]]|H]. right; exact H.
      * intros [[_ [= Heq]]|H]; [congruence | right; exact H].
  - simpl. intros id' [[= <-]|Hf]; [lia|].
    assert (id' < after_seq r)%nat by (apply Hbound; auto). lia.
Qed.

Lemma recorded_after_flash (r : Root) (u : option nat) :
  recorded r u None ->
  recorded (snd (after FlashStep r)) u (Some (after_seq r)).
Proof.
  intros [Hjobs Hbound]. split.
  - intros id' cb. rewrite pending_after.
    destruct (Nat.eqb_spec (after_seq r) id') as [<-|Hne].
    + split.
      * intros [= <-]. right; auto.
      * intros [[_ Hu]|[-> _]]; [|reflexivity].
        assert (after_seq r < after_seq r)%nat by (apply Hbound; auto). lia.
    + rewrite Hjobs. split.
      * intros [H|[_ [=]]]. left; exact H.
      * intros [H|[_ [= Heq]]]; [left; exact H | congruence].
  - simpl. intros id' [Hu|[= <-]]; [|lia].
    assert (id' < after_seq r)%nat by (apply Hbound; auto). lia.
Qed.

(** The helpers keep queue and handles in step. *)
Lemma stop_flash_jobs (app : FloatingTimerApp) :
  jobs_recorded app -> jobs_recorded (_stop_flash app).
Proof.
  unfold jobs_recorded, _stop_flash.
  destruct (_flash_job app) as [id|] eqn:Hf; simpl; intros H.
  - now apply recorded_cancel_flash.
  - exact H.
Qed.

Lemma cancel_update_loop_jobs (app : FloatingTimerApp) :
  jobs_recorded app -> jobs_recorded (_cancel_update_loop app).
Proof.
  unfold jobs_recorded, _cancel_update_loop.
  destruct (_update_job app) as [id|] eqn:Hu; simpl; intros H.
  - now apply recorded_cancel_update.
  - rewrite Hu. exact H.
Qed.

Lemma ensure_update_loop_jobs (app : FloatingTimerApp) :
  jobs_recorded app -> jobs_recorded (_ensure_update_loop app).
Proof.
  unfold jobs_recorded, _ensure_update_loop.
  destruct (_update_job app) as [id|] eqn:Hu; simpl; intros H.
  - rewrite Hu. exact H.
  - now apply (recorded_after_update (root app)).
Qed.

Lemma set_model_jobs (m : TimerModel) (app : FloatingTimerApp) :
  jobs_recorded app -> jobs_recorded (set_model m app).
Proof. intros H. exact H. Qed.

Lemma sync_jobs (app : FloatingTimerApp) :
  jobs_recorded app -> jobs_recorded (_sync_ui_from_model app).
Proof.
  unfold jobs_recorded.
  destruct (sync_frame app) as (-> & _ & -> & -> & _). auto.
Qed.

Lemma apply_countdown_jobs (int_of_str : string -> option Z)
    (app : FloatingTimerApp) :
  jobs_recorded app -> jobs_recorded (_apply_countdown int_of_str app).
Proof.
  unfold jobs_recorded.
  destruct (apply_countdown_frame int_of_str app) as (-> & -> & -> & _).
  auto.
Qed.

Lemma flash_step_jobs (app : FloatingTimerApp) :
  recorded (root app) (_update_job app) None ->
  jobs_recorded (_flash_step app).
Proof.
  unfold jobs_recorded, _flash_step; simpl.
  destruct (_flash_remaining app <=? 0)%Z; simpl; intros H.
  - exact H.
  - now apply (recorded_after_flash (root app)).
Qed.

Lemma start_flash_jobs (app : FloatingTimerApp) :
  jobs_recorded app -> jobs_recorded (_start_flash app).
Proof.
  unfold _start_flash. intros H.
  destruct (_flash_job app) eqn:Hf; [exact H|].
  apply flash_step_jobs. unfold jobs_recorded in H. rewrite Hf in H. exact H.
Qed.

Lemma on_update_jobs (now : Q) (app : FloatingTimerApp) :
  recorded (root app) None (_flash_job app) ->
  jobs_recorded (_on_update now app).
Proof.
  intros H. unfold _on_update. cbv zeta.
  change (model (set_update_job None app)) with (model app).
  destruct (snapshot now (model app)) as [snap model'].
  set (app1 := if TimerMode_eqb (snap_mode snap) UP then _ else _).
  assert (H1 : jobs_recorded app1)
    by (subst app1; destruct (TimerMode_eqb (snap_mode snap) UP); exact H).
  destruct (_ && _); [apply sync_jobs, start_flash_jobs, H1|].
  destruct (TimerState_eqb _ RUNNING);
    [apply ensure_update_loop_jobs, H1 | apply sync_jobs, H1].
Qed.

Lemma on_start_jobs (int_of_str : string -> option Z) (now : Q)
    (app : FloatingTimerApp) :
  jobs_recorded app -> jobs_recorded (_on_start int_of_str now app).
Proof.
  intros H. unfold _on_start. cbv zeta.
  set (app1 := if TimerMode_eqb _ DOWN then _ else _).
  assert (H1 : jobs_recorded app1).
  { subst app1. apply stop_flash_jobs in H.
    destruct (TimerMode_eqb _ DOWN);
      [now apply apply_countdown_jobs | exact H]. }
  destruct (_ && _); [apply sync_jobs, H1|].
  apply sync_jobs, ensure_update_loop_jobs.
  destruct (TimerState_eqb _ PAUSED); apply set_model_jobs, H1.
Qed.

Lemma on_stop_jobs (now : Q) (app : FloatingTimerApp) :
  jobs_recorded app -> jobs_recorded (_on_stop now app).
Proof.
  intros H. unfold _on_stop. cbv zeta. apply sync_jobs.
  apply stop_flash_jobs in H.
  destruct (TimerState_eqb _ RUNNING); [|exact H].
  apply cancel_update_loop_jobs, set_model_jobs, H.
Qed.

Lemma on_reset_jobs (app : FloatingTimerApp) :
  jobs_recorded app -> jobs_recorded (_on_reset app).
Proof.
  intros H. unfold _on_reset. cbv zeta. apply sync_jobs.
  apply stop_flash_jobs, cancel_update_loop_jobs in H.
  apply set_model_jobs, H.
Qed.

Lemma on_mode_change_jobs (int_of_str : string -> option Z)
    (app : FloatingTimerApp) :
  jobs_recorded app -> jobs_recorded (_on_mode_change int_of_str app).
Proof.
  intros H. unfold _on_mode_change. cbv zeta. apply sync_jobs.
  apply stop_flash_jobs, cancel_update_loop_jobs in H.
  destruct (TimerMode_eqb _ DOWN);
    [apply apply_countdown_jobs |]; apply set_model_jobs, H.
Qed.

Lemma init_jobs_recorded : jobs_recorded FloatingTimerApp_init.
Proof.
  apply sync_jobs. split; simpl.
  - intros id cb. split; [discriminate | intros [[_ [=]]|[_ [=]]]].
  - intros id [[=]|[=]].
Qed.

Lemma handle_jobs_recorded (int_of_str : string -> option Z) (e : event)
    (app : FloatingTimerApp) :
  jobs_recorded app -> jobs_recorded (handle int_of_str e app).
Proof.
  intros H.
  destruct e as [now|now| | |mode|now| | | |text|text|text|id now]; simpl.
  - destruct (start_btn app); [now apply on_start_jobs | exact H].
  - destruct (stop_btn app); [now apply on_stop_jobs | exact H].
  - now apply on_reset_jobs.
  - destruct (apply_btn app); [now apply apply_countdown_jobs | exact H].
  - now apply on_mode_change_jobs.
  - unfold _toggle_start_stop. destruct (TimerState_eqb _ RUNNING);
      [now apply on_stop_jobs | now apply on_start_jobs].
  - now apply sync_jobs.
  - now apply on_reset_jobs.
  - now apply apply_countdown_jobs.
  - destruct (hours_entry app); exact H.
  - destruct (minutes_entry app); exact H.
  - destruct (seconds_entry app); exact H.
  - destruct (pending id _) as [cb|] eqn:Hp; [|exact H].
    pose proof (recorded_pending _ _ _ id cb H Hp) as Hid.
    unfold jobs_recorded in H.
    destruct cb.
    + apply on_update_jobs; simpl. rewrite Hid in H.
      now apply recorded_cancel_update.
    + apply flash_step_jobs; simpl. rewrite Hid in H.
      now apply recorded_cancel_flash.
Qed.

(** X11.  The [after] queue and the two handles stay in step: after the
    constructor and after every event, a callback is pending in the queue
    exactly when its identifier is the one kept in [_update_job] (for
    [_on_update]) or in [_flash_job] (for [_flash_step]); so at most one
    callback of each kind is ever pending. *)
Theorem jobs_always_recorded (int_of_str : string -> option Z) :
  jobs_recorded FloatingTimerApp_init /\
  forall (e : event) (app : FloatingTimerApp),
    jobs_recorded app -> jobs_recorded (handle int_of_str e app).
Proof.
  split; [exact init_jobs_recorded | intros e app].
  apply handle_jobs_recorded.
Qed.

Lemma jobs_always_recorded_witness :
  jobs_recorded
    (handle (fun _ => None) (AfterFires 0 1)
       (handle (fun _ => None) (PressStart 0) FloatingTimerApp_init)).
Proof.
  apply (proj2 (jobs_always_recorded (fun _ => None))).
  apply (proj2 (jobs_always_recorded (fun _ => None))).
  apply (proj1 (jobs_always_recorded (fun _ => None))).
Defined.

(** Attributes after the helpers, as rewriting rules. *)
Lemma sync_model (app : FloatingTimerApp) :
  model (_sync_ui_from_model app) = model app.
Proof. unfold _sync_ui_from_model; destruct (_mode (model app)), (_state (model app)); reflexivity. Qed.

Lemma sync_update_job (app : FloatingTimerApp) :
  _update_job (_sync_ui_from_model app) = _update_job app.
Proof. unfold _sync_ui_from_model; destruct (_mode (model app)), (_state (model app)); reflexivity. Qed.

Lemma sync_flash_job (app : FloatingTimerApp) :
  _flash_job (_sync_ui_from_model app) = _flash_job app.
Proof. unfold _sync_ui_from_model; destruct (_mode (model app)), (_state (model app)); reflexivity. Qed.

Lemma stop_flash_model (app : FloatingTimerApp) :
  model (_stop_flash app) = model app.
Proof. unfold _stop_flash; destruct (_flash_job app); reflexivity. Qed.

Lemma stop_flash_update_job (app : FloatingTimerApp) :
  _update_job (_stop_flash app) = _update_job app.
Proof. unfold _stop_flash; destruct (_flash_job app); reflexivity. Qed.

Lemma stop_flash_flash_job (app : FloatingTimerApp) :
  _flash_job (_stop_flash app) = None.
Proof. unfold _stop_flash; destruct (_flash_job app); reflexivity. Qed.

Lemma cancel_update_loop_model (app : FloatingTimerApp) :
  model (_cancel_update_loop app) = model app.
Proof. unfold _cancel_update_loop; destruct (_update_job app) eqn:H; simpl; congruence. Qed.

Lemma cancel_update_loop_update_job (app : FloatingTimerApp) :
  _update_job (_cancel_update_loop app) = None.
Proof. unfold _cancel_update_loop; destruct (_update_job app) eqn:H; simpl; congruence. Qed.

Lemma cancel_update_loop_flash_job (app : FloatingTimerApp) :
  _flash_job (_cancel_update_loop app) = _flash_job app.
Proof. unfold _cancel_update_loop; destruct (_update_job app) eqn:H; simpl; congruence. Qed.

Lemma ensure_update_loop_model (app : FloatingTimerApp) :
  model (_ensure_update_loop app) = model app.
Proof. unfold _ensure_update_loop; destruct (_update_job app); reflexivity. Qed.

Lemma ensure_update_loop_flash_job (app : FloatingTimerApp) :
  _flash_job (_ensure_update_loop app) = _flash_job app.
Proof. unfold _ensure_update_loop; destruct (_update_job app); reflexivity. Qed.

Lemma flash_step_model (app : FloatingTimerApp) :
  model (_flash_step app) = model app.
Proof. unfold _flash_step; simpl; destruct (_flash_remaining app <=? 0)%Z; reflexivity. Qed.

Lemma flash_step_update_job (app : FloatingTimerApp) :
  _update_job (_flash_step app) = _update_job app.
Proof. unfold _flash_step; simpl; destruct (_flash_remaining app <=? 0)%Z; reflexivity. Qed.

Lemma start_flash_model (app : FloatingTimerApp) :
  model (_start_flash app) = model app.
Proof. unfold _start_flash, _flash_step; simpl; destruct (_flash_job app); [reflexivity|]; simpl; destruct (8 <=? 0)%Z; reflexivity. Qed.

Lemma start_flash_update_job (app : FloatingTimerApp) :
  _update_job (_start_flash app) = _update_job app.
Proof. unfold _start_flash, _flash_step; simpl; destruct (_flash_job app); [reflexivity|]; simpl; destruct (8 <=? 0)%Z; reflexivity. Qed.

Lemma set_model_model (m : TimerModel) (app : FloatingTimerApp) :
  model (set_model m app) = m.
Proof. reflexivity. Qed.

Lemma set_model_update_job (m : TimerModel) (app : FloatingTimerApp) :
  _update_job (set_model m app) = _update_job app.
Proof. reflexivity. Qed.

Lemma set_model_flash_job (m : TimerModel) (app : FloatingTimerApp) :
  _flash_job (set_model m app) = _flash_job app.
Proof. reflexivity. Qed.

Lemma apply_countdown_update_job (int_of_str : string -> option Z)
    (app : FloatingTimerApp) :
  _update_job (_apply_countdown int_of_str app) = _update_job app.
Proof. apply apply_countdown_frame. Qed.

Lemma apply_countdown_flash_job (int_of_str : string -> option Z)
    (app : FloatingTimerApp) :
  _flash_job (_apply_countdown int_of_str app) = _flash_job app.
Proof. apply apply_countdown_frame. Qed.

Lemma apply_countdown_state (int_of_str : string -> option Z)
    (app : FloatingTimerApp) :
  _state (model (_apply_countdown int_of_str app)) = _state (model app).
Proof. apply apply_countdown_frame. Qed.

Lemma apply_countdown_mode (int_of_str : string -> option Z)
    (app : FloatingTimerApp) :
  _mode (model (_apply_countdown int_of_str app)) = _mode (model app).
Proof. apply apply_countdown_frame. Qed.

Create Rewrite HintDb attrs.
#[local] Hint Rewrite
  sync_model
  sync_update_job
  sync_flash_job
  stop_flash_model
  stop_flash_update_job
  stop_flash_flash_job
  cancel_update_loop_model
  cancel_update_loop_update_job
  cancel_update_loop_flash_job
  ensure_update_loop_model
  ensure_update_loop_flash_job
  flash_step_model
  flash_step_update_job
  start_flash_model
  start_flash_update_job
  set_model_model
  set_model_update_job
  set_model_flash_job
  apply_countdown_update_job
  apply_countdown_flash_job
  apply_countdown_state
  apply_countdown_mode
  : attrs.

Lemma on_stop_state (now : Q) (app : FloatingTimerApp) :
  let app' := _on_stop now app in
  _update_job app' = None \/
  (_state (model app') = _state (model app) /\
   _update_job app' = _update_job app).
Proof.
  unfold _on_stop. cbv zeta.
  destruct (TimerState_eqb _ RUNNING); autorewrite with attrs; auto.
Qed.

Lemma on_update_polling (now : Q) (app : FloatingTimerApp) :
  polling_only_running (_on_update now app).
Proof.
  unfold polling_only_running, _on_update. cbv zeta.
  change (model (set_update_job None app)) with (model app).
  destruct (snapshot_reads_model now (model app)) as [_ Hstate].
  destruct (snapshot now (model app)) as [snap model']; simpl in Hstate.
  set (app1 := if TimerMode_eqb (snap_mode snap) UP then _ else _).
  assert (H1 : _update_job app1 = None /\ model app1 = model')
    by (subst app1; destruct (TimerMode_eqb (snap_mode snap) UP); now split).
  destruct H1 as [Hjob Hmodel].
  destruct (_ && _).
  - autorewrite with attrs. congruence.
  - destruct (TimerState_eqb_spec (snap_state snap) RUNNING) as [Hrun|Hrun].
    + autorewrite with attrs. intros _. congruence.
    + autorewrite with attrs. congruence.
Qed.

Lemma init_polling : polling_only_running FloatingTimerApp_init.
Proof.
  unfold polling_only_running, FloatingTimerApp_init.
  autorewrite with attrs. simpl. congruence.
Qed.

Lemma handle_polling (int_of_str : string -> option Z) (e : event)
    (app : FloatingTimerApp) :
  polling_only_running app ->
  polling_only_running (handle int_of_str e app).
Proof.
  intros H. unfold polling_only_running in *.
  assert (Hstart : forall now,
             _update_job (_on_start int_of_str now app) <> None ->
             _state (model (_on_start int_of_str now app)) = RUNNING).
  { intros now. destruct (on_start_state int_of_str now app)
      as [[-> ->]|Hrun]; [exact H | intros _; exact Hrun]. }
  assert (Hstop : forall now,
             _update_job (_on_stop now app) <> None ->
             _state (model (_on_stop now app)) = RUNNING).
  { intros now. destruct (on_stop_state now app) as [->|[-> ->]];
      [congruence | exact H]. }
  destruct e as [now|now| | |mode|now| | | |text|text|text|id now];
    cbn [handle].
  + destruct (start_btn app); [apply Hstart | exact H].
  + destruct (stop_btn app); [apply Hstop | exact H].
  + unfold _on_reset. cbv zeta. autorewrite with attrs. congruence.
  + destruct (apply_btn app); [|exact H].
    autorewrite with attrs. exact H.
  + unfold _on_mode_change. cbv zeta.
    destruct (TimerMode_eqb _ DOWN); autorewrite with attrs; congruence.
  + unfold _toggle_start_stop.
    destruct (TimerState_eqb _ RUNNING); [apply Hstop | apply Hstart].
  + unfold _toggle_compact. autorewrite with attrs. exact H.
  + unfold _on_reset. cbv zeta. autorewrite with attrs. congruence.
  + unfold _on_entry_return. autorewrite with attrs. exact H.
  + destruct (hours_entry app); exact H.
  + destruct (minutes_entry app); exact H.
  + destruct (seconds_entry app); exact H.
  + destruct (pending id _) as [[|]|]; [| |exact H].
    * apply on_update_polling.
    * autorewrite with attrs. exact H.
Qed.

(** X12.  The polling is scheduled only while the model runs: after the
    constructor and after every event, a kept [_update_job] means the
    model is in the state RUNNING. *)
Theorem polling_always_only_running (int_of_str : string -> option Z) :
  polling_only_running FloatingTimerApp_init /\
  forall (e : event) (app : FloatingTimerApp),
    polling_only_running app ->
    polling_only_running (handle int_of_str e app).
Proof.
  split; [exact init_polling | intros e app].
  apply handle_polling.
Qed.

Lemma polling_always_only_running_witness :
  polling_only_running
    (handle (fun _ => None) (PressStop 3)
       (handle (fun _ => None) (PressStart 0) FloatingTimerApp_init)).
Proof.
  apply (proj2 (polling_always_only_running (fun _ => None))).
  apply (proj2 (polling_always_only_running (fun _ => None))).
  apply (proj1 (polling_always_only_running (fun _ => None))).
Defined.

Lemma snapshot_finished_stays (now : Q) (self : TimerModel) :
  _state self = FINISHED -> _state (snd (snapshot now self)) = FINISHED.
Proof.
  intros Hfin.
  destruct (snapshot_model_cases now self) as [Heq|(_ & _ & _ & Heq)];
    rewrite Heq; [exact Hfin | reflexivity].
Qed.

Lemma on_update_flash (now : Q) (app : FloatingTimerApp) :
  flash_only_finished app -> flash_only_finished (_on_update now app).
Proof.
  intros H. unfold flash_only_finished, _on_update in *. cbv zeta.
  change (model (set_update_job None app)) with (model app).
  destruct (snapshot_reads_model now (model app)) as [Hmode Hstate].
  pose proof (step_mode (Snapshot now) (model app)) as Hmode'.
  pose proof (snapshot_finished_stays now (model app)) as Hstays.
  simpl in Hmode'.
  destruct (snapshot now (model app)) as [snap model'];
    simpl in Hmode, Hstate, Hmode', Hstays.
  set (app1 := if TimerMode_eqb (snap_mode snap) UP then _ else _).
  assert (H1 : _flash_job app1 = _flash_job app /\ model app1 = model')
    by (subst app1; destruct (TimerMode_eqb (snap_mode snap) UP); now split).
  destruct H1 as [Hjob Hmodel].
  destruct (TimerMode_eqb_spec (snap_mode snap) DOWN) as [Hdown|Hdown];
    destruct (TimerState_eqb_spec (snap_state snap) FINISHED) as [Hfin|Hfin];
    cbn [andb].
  - autorewrite with attrs. intros _. rewrite Hmodel. split; congruence.
  - destruct (TimerState_eqb (snap_state snap) RUNNING);
      autorewrite with attrs; rewrite Hjob; intros Hflash;
      destruct (H Hflash) as [Hf _]; exfalso; apply Hfin;
      rewrite Hstate; auto.
  - destruct (TimerState_eqb (snap_state snap) RUNNING);
      autorewrite with attrs; rewrite Hjob; intros Hflash;
      destruct (H Hflash) as [_ Hd]; congruence.
  - destruct (TimerState_eqb (snap_state snap) RUNNING);
      autorewrite with attrs; rewrite Hjob; intros Hflash;
      destruct (H Hflash) as [_ Hd]; congruence.
Qed.

Lemma init_flash : flash_only_finished FloatingTimerApp_init.
Proof.
  unfold flash_only_finished, FloatingTimerApp_init.
  autorewrite with attrs. simpl. congruence.
Qed.

Lemma handle_flash (int_of_str : string -> option Z) (e : event)
    (app : FloatingTimerApp) :
  jobs_recorded app ->
  flash_only_finished app ->
  flash_only_finished (handle int_of_str e app).
Proof.
  intros Hjobs H.
  assert (Hstart : forall now,
             flash_only_finished (_on_start int_of_str now app)).
  { intros now. unfold flash_only_finished, _on_start. cbv zeta.
    set (app1 := if TimerMode_eqb _ DOWN then _ else _).
    assert (H1 : _flash_job app1 = None).
    { subst app1. destruct (TimerMode_eqb _ DOWN);
        autorewrite with attrs; reflexivity. }
    destruct (_ && _); [autorewrite with attrs; congruence|].
    destruct (TimerState_eqb _ PAUSED); autorewrite with attrs;
      congruence. }
  assert (Hstop : forall now, flash_only_finished (_on_stop now app)).
  { intros now. unfold flash_only_finished, _on_stop. cbv zeta.
    destruct (TimerState_eqb _ RUNNING); autorewrite with attrs;
      congruence. }
  assert (Hreset : flash_only_finished (_on_reset app)).
  { unfold flash_only_finished, _on_reset. cbv zeta.
    autorewrite with attrs. congruence. }
  destruct e as [now|now| | |mode|now| | | |text|text|text|id now];
    cbn [handle].
  + destruct (start_btn app); [apply Hstart | exact H].
  + destruct (stop_btn app); [apply Hstop | exact H].
  + exact Hreset.
  + destruct (apply_btn app); [|exact H].
    unfold flash_only_finished in *. autorewrite with attrs. exact H.
  + unfold flash_only_finished, _on_mode_change. cbv zeta.
    destruct (TimerMode_eqb _ DOWN); autorewrite with attrs; congruence.
  + unfold _toggle_start_stop.
    destruct (TimerState_eqb _ RUNNING); [apply Hstop | apply Hstart].
  + unfold flash_only_finished, _toggle_compact in *.
    autorewrite with attrs. exact H.
  + exact Hreset.
  + unfold flash_only_finished, _on_entry_return in *.
    autorewrite with attrs. exact H.
  + destruct (hours_entry app); exact H.
  + destruct (minutes_entry app); exact H.
  + destruct (seconds_entry app); exact H.
  + destruct (pending id _) as [cb|] eqn:Hp; [|exact H].
    pose proof (recorded_pending _ _ _ id cb Hjobs Hp) as Hid.
    destruct cb.
    * apply on_update_flash. exact H.
    * unfold flash_only_finished in *. autorewrite with attrs.
      intros _. apply H. rewrite Hid. discriminate.
Qed.

(** X13.  The flash is scheduled only on a finished count-down: after
    the constructor, and after every event on an application whose queue
    and handles are in step, a kept [_flash_job] means the model is in
    count-down mode and in the state FINISHED. *)
Theorem flash_always_only_finished (int_of_str : string -> option Z) :
  flash_only_finished FloatingTimerApp_init /\
  forall (e : event) (app : FloatingTimerApp),
    jobs_recorded app ->
    flash_only_finished app ->
    flash_only_finished (handle int_of_str e app).
Proof.
  split; [exact init_flash | intros e app].
  apply handle_flash.
Qed.

Lemma flash_always_only_finished_witness :
  flash_only_finished
    (handle decimal_int_of_str (AfterFires 1 302)
       (handle decimal_int_of_str (AfterFires 0 301)
          (handle decimal_int_of_str (PressStart 0)
             (handle decimal_int_of_str (SelectMode DOWN)
                FloatingTimerApp_init)))).
Proof.
  apply (proj2 (flash_always_only_finished decimal_int_of_str)).
  - vm_compute. split.
    + intros id cb. destruct id as [|[|id]]; simpl.
      * split; [discriminate | intros [[_ [=]]|[_ [=]]]].
      * split; [intros [= <-]; right; auto | intros [[_ [=]]|[-> _]]; auto].
      * split; [discriminate | intros [[_ [=]]|[_ [=]]]].
    + intros id [[=]|[= <-]]. lia.
  - vm_compute. intros _. split; reflexivity.
Defined.

Lemma handle_all_scheduling (int_of_str : string -> option Z)
    (es : list event) :
  forall app : FloatingTimerApp,
    jobs_recorded app /\ polling_only_running app /\ flash_only_finished app ->
    let app' := handle_all int_of_str es app in
    jobs_recorded app' /\ polling_only_running app' /\
    flash_only_finished app'.
Proof.
  induction es as [|e rest IH]; intros app (Hjobs & Hpoll & Hflash);
    simpl; [auto|].
  apply IH. split; [|split].
  - now apply handle_jobs_recorded.
  - now apply handle_polling.
  - now apply handle_flash.
Qed.

(** X14.  Whatever events the application has handled since its
    construction, a pending [_on_update] callback finds the model
    RUNNING and a pending [_flash_step] callback finds a finished
    count-down.  [_on_update] being the only caller of [snapshot], the
    presentation layer only ever takes snapshots of a running model. *)
Theorem callbacks_find_expected_state (int_of_str : string -> option Z)
    (es : list event) (id : nat) (cb : callback) :
  pending id
    (after_jobs (root (handle_all int_of_str es FloatingTimerApp_init)))
  = Some cb ->
  match cb with
  | OnUpdate =>
      _state (model (handle_all int_of_str es FloatingTimerApp_init))
      = RUNNING
  | FlashStep =>
      _state (model (handle_all int_of_str es FloatingTimerApp_init))
      = FINISHED /\
      _mode (model (handle_all int_of_str es FloatingTimerApp_init)) = DOWN
  end.
Proof.
  intros Hp.
  destruct (handle_all_scheduling int_of_str es FloatingTimerApp_init)
    as (Hjobs & Hpoll & Hflash).
  { split; [|split].
    - apply init_jobs_recorded.
    - apply init_polling.
    - apply init_flash. }
  pose proof (recorded_pending _ _ _ id cb Hjobs Hp) as Hid.
  destruct cb.
  - apply Hpoll. rewrite Hid. discriminate.
  - apply Hflash. rewrite Hid. discriminate.
Qed.

Lemma callbacks_find_expected_state_witness :
  _state
    (model
       (handle_all decimal_int_of_str [SelectMode DOWN; PressStart 0]
          FloatingTimerApp_init)) = RUNNING.
Proof.
  apply (callbacks_find_expected_state decimal_int_of_str
           [SelectMode DOWN; PressStart 0] 0 OnUpdate).
  reflexivity.
Defined.

(** *** What the handlers show *)



(** One firing of the scheduled flash callback. *)
Lemma fire_flash_once (app : FloatingTimerApp) :
  jobs_recorded app ->
  _flash_job app <> None ->
  let app' := fire_flash app in
  jobs_recorded app' /\
  model app' = model app /\
  _update_job app' = _update_job app /\
  if (_flash_remaining app <=? 0)%Z
  then _flash_job app' = None /\ container_bg app' = _bg /\
       time_label_bg app' = _bg
  else _flash_job app' <> None /\
       _flash_remaining app' = (_flash_remaining app - 1)%Z.
Proof.
  intros Hjobs Hflash. unfold fire_flash.
  destruct (_flash_job app) as [id|] eqn:Hid; [clear Hflash | contradiction].
  split; [now apply handle_jobs_recorded|].
  assert (Hp : pending id (after_jobs (root app)) = Some FlashStep).
  { apply Hjobs. right. auto. }
  cbn [handle]. rewrite Hp. cbv zeta.
  unfold _flash_step. simpl.
  destruct (_flash_remaining app <=? 0)%Z; simpl;
    (split; [reflexivity|]); (split; [reflexivity|]);
    [repeat split | split; [discriminate | reflexivity]].
Qed.

Lemma fire_flash_times_run (k : nat) :
  forall app : FloatingTimerApp,
    jobs_recorded app ->
    _flash_job app <> None ->
    _flash_remaining app = Z.of_nat k ->
    (forall j, (j <= k)%nat -> _flash_job (fire_flash_times j app) <> None) /\
    _flash_job (fire_flash_times (S k) app) = None /\
    container_bg (fire_flash_times (S k) app) = _bg /\
    time_label_bg (fire_flash_times (S k) app) = _bg /\
    jobs_recorded (fire_flash_times (S k) app) /\
    model (fire_flash_times (S k) app) = model app.
Proof.
  induction k as [|k IH]; intros app Hjobs Hflash Hrem;
    destruct (fire_flash_once app Hjobs Hflash) as (Hjobs' & Hmodel & _ & Hif);
    rewrite Hrem in Hif.
  - simpl in Hif. destruct Hif as (Hnone & Hbg & Hlabel).
    split.
    + intros j Hj. replace j with O by lia. exact Hflash.
    + simpl. auto.
  - replace (Z.of_nat (S k) <=? 0)%Z with false in Hif
      by (symmetry; apply Z.leb_gt; lia).
    destruct Hif as [Hflash' Hrem'].
    assert (Hk : _flash_remaining (fire_flash app) = Z.of_nat k)
      by (rewrite Hrem'; lia).
    destruct (IH (fire_flash app) Hjobs' Hflash' Hk)
      as (Hpending & Hnone & Hbg & Hlabel & Hrec & Hm).
    split.
    + intros [|j] Hj; [exact Hflash|].
      simpl. apply Hpending. lia.
    + change (fire_flash_times (S (S k)) app)
        with (fire_flash_times (S k) (fire_flash app)).
      split; [exact Hnone|]. split; [exact Hbg|]. split; [exact Hlabel|].
      split; [exact Hrec | congruence].
Qed.

(** X16.  The flash always runs out: with the flash scheduled and
    [_flash_remaining] at [k], the callback stays scheduled through its
    next [k] firings, and its firing number [k + 1] schedules nothing,
    restores the normal background of the container and of the time
    label, and leaves no flash callback in the queue.  The model is not
    touched. *)
Theorem flash_runs_out (k : nat) (app : FloatingTimerApp) :
  jobs_recorded app ->
  _flash_job app <> None ->
  _flash_remaining app = Z.of_nat k ->
  (forall j, (j <= k)%nat -> _flash_job (fire_flash_times j app) <> None) /\
  _flash_job (fire_flash_times (S k) app) = None /\
  container_bg (fire_flash_times (S k) app) = _bg /\
  time_label_bg (fire_flash_times (S k) app) = _bg /\
  (forall id,
      pending id (after_jobs (root (fire_flash_times (S k) app)))
      <> Some FlashStep) /\
  model (fire_flash_times (S k) app) = model app.
Proof.
  intros Hjobs Hflash Hrem.
  destruct (fire_flash_times_run k app Hjobs Hflash Hrem)
    as (Hpending & Hnone & Hbg & Hlabel & Hrec & Hm).
  split; [exact Hpending|]. split; [exact Hnone|]. split; [exact Hbg|].
  split; [exact Hlabel|]. split; [|exact Hm].
  intros id Hp.
  pose proof (recorded_pending _ _ _ id FlashStep Hrec Hp) as Hid.
  cbv beta iota in Hid. congruence.
Qed.

Lemma flash_runs_out_witness :
  _flash_job
    (fire_flash_times 8
       (handle_all decimal_int_of_str
          [SelectMode DOWN; PressStart 0; AfterFires 0 301]
          FloatingTimerApp_init)) = None.
Proof.
  apply (flash_runs_out 7
           (handle_all decimal_int_of_str
              [SelectMode DOWN; PressStart 0; AfterFires 0 301]
              FloatingTimerApp_init)).
  - apply (handle_all_scheduling decimal_int_of_str
             [SelectMode DOWN; PressStart 0; AfterFires 0 301]).
    split; [exact init_jobs_recorded|].
    split; [exact init_polling | exact init_flash].
  - vm_compute. discriminate.
  - reflexivity.
Defined.

(** X17.  Applying the entries of an idle or finished count-down: when
    they read as [h] hours, [m] minutes and [s] seconds, none negative
    and the last two below sixty, the target becomes
    [h * 3600 + m * 60 + s], the accumulation is cleared, and the time
    label shows the three numbers. *)
Theorem apply_countdown_shows_entries (int_of_str : string -> option Z)
    (app : FloatingTimerApp) (h m s : Z) :
  _mode (model app) = DOWN ->
  _state (model app) = IDLE \/ _state (model app) = FINISHED ->
  entry_value int_of_str (_hours_var app) = h ->
  entry_value int_of_str (_minutes_var app) = m ->
  entry_value int_of_str (_seconds_var app) = s ->
  (0 <= h)%Z -> (0 <= m < 60)%Z -> (0 <= s < 60)%Z ->
  let app' := _apply_countdown int_of_str app in
  _target_seconds (model app') = (h * 3600 + m * 60 + s)%Z /\
  _accumulated_elapsed (model app') = 0 /\
  _time_text app' =
    (format_02d h ++ ":" ++ format_02d m ++ ":" ++ format_02d s)%string.
Proof.
  intros Hmode Hstate Hh Hm Hs Hh0 Hm0 Hs0.
  unfold _apply_countdown. cbv zeta. rewrite Hh, Hm, Hs.
  rewrite !Z.max_r by lia.
  cbn [model set_model set_target_seconds _mode _state].
  rewrite Hmode.
  assert (Hcond : TimerState_eqb (_state (model app)) IDLE
                  || TimerState_eqb (_state (model app)) FINISHED = true)
    by (destruct Hstate as [-> | ->]; reflexivity).
  rewrite Hcond. cbn [TimerMode_eqb andb].
  cbn [model _time_text set_time_text set_model _target_seconds
       _accumulated_elapsed].
  unfold set_target_seconds. cbn [_target_seconds _accumulated_elapsed _mode
                                  _state].
  rewrite Hmode, Hcond, Z.max_r by lia.
  split; [reflexivity|]. split; [reflexivity|].
  apply format_hms_parts; assumption.
Qed.

Lemma apply_countdown_shows_entries_witness :
  _time_text
    (_apply_countdown decimal_int_of_str
       (handle decimal_int_of_str (EditSeconds "7")
          (handle decimal_int_of_str (SelectMode DOWN)
             FloatingTimerApp_init))) = "00:05:07"%string.
Proof.
  apply (apply_countdown_shows_entries decimal_int_of_str
           (handle decimal_int_of_str (EditSeconds "7")
              (handle decimal_int_of_str (SelectMode DOWN)
                 FloatingTimerApp_init)) 0 5 7);
    try reflexivity; try lia.
  left. reflexivity.
Defined.

Lemma apply_countdown_model (int_of_str : string -> option Z)
    (app : FloatingTimerApp) :
  model (_apply_countdown int_of_str app) =
  set_target_seconds
    (Z.max 0 (entry_value int_of_str (_hours_var app)) * 3600
     + Z.max 0 (entry_value int_of_str (_minutes_var app)) * 60
     + Z.max 0 (entry_value int_of_str (_seconds_var app)))%Z
    (model app).
Proof.
  unfold _apply_countdown. cbv zeta.
  destruct (TimerMode_eqb _ DOWN && _); reflexivity.
Qed.

Lemma stop_flash_vars (app : FloatingTimerApp) :
  _hours_var (_stop_flash app) = _hours_var app /\
  _minutes_var (_stop_flash app) = _minutes_var app /\
  _seconds_var (_stop_flash app) = _seconds_var app.
Proof.
  unfold _stop_flash. destruct (_flash_job app); repeat split.
Qed.

(** X18.  A count-down of zero is not started: in count-down mode, when
    none of the three entries reads as a positive number, [_on_start]
    stores a target of zero and leaves the state of the model, its
    [_start_perf] and the polling as they were. *)
Theorem on_start_zero_countdown (int_of_str : string -> option Z) (now : Q)
    (app : FloatingTimerApp) :
  _mode (model app) = DOWN ->
  (entry_value int_of_str (_hours_var app) <= 0)%Z ->
  (entry_value int_of_str (_minutes_var app) <= 0)%Z ->
  (entry_value int_of_str (_seconds_var app) <= 0)%Z ->
  let app' := _on_start int_of_str now app in
  _target_seconds (model app') = 0%Z /\
  _state (model app') = _state (model app) /\
  _start_perf (model app') = _start_perf (model app) /\
  _update_job app' = _update_job app.
Proof.
  intros Hmode Hh Hm Hs.
  assert (Hmodel : model (_apply_countdown int_of_str (_stop_flash app)) =
                   set_target_seconds 0 (model app)).
  { rewrite apply_countdown_model.
    destruct (stop_flash_vars app) as (-> & -> & ->).
    rewrite !Z.max_l by assumption. rewrite stop_flash_model. reflexivity. }
  unfold _on_start. cbv zeta.
  rewrite stop_flash_model, Hmode. cbn [TimerMode_eqb].
  rewrite Hmodel. cbn [set_target_seconds _mode _target_seconds].
  rewrite Hmode. cbn [TimerMode_eqb andb Z.max Z.compare Z.leb].
  rewrite sync_model, sync_update_job, apply_countdown_update_job,
    stop_flash_update_job, Hmodel.
  repeat split; reflexivity.
Qed.

Lemma on_start_zero_countdown_witness :
  _state
    (model
       (_on_start decimal_int_of_str 4
          (handle decimal_int_of_str (EditMinutes "-3")
             (handle decimal_int_of_str (SelectMode DOWN)
                FloatingTimerApp_init)))) = IDLE.
Proof.
  destruct (on_start_zero_countdown decimal_int_of_str 4
              (handle decimal_int_of_str (EditMinutes "-3")
                 (handle decimal_int_of_str (SelectMode DOWN)
                    FloatingTimerApp_init)))
    as (_ & Hstate & _);
    [reflexivity | vm_compute; discriminate | vm_compute; discriminate
    | vm_compute; discriminate |].
  rewrite Hstate. reflexivity.
Defined.

Lemma mode_of_value (mode : TimerMode) :
  (if String.eqb (TimerMode_value mode) (TimerMode_value UP)
   then UP else DOWN) = mode.
Proof. destruct mode; reflexivity. Qed.

Lemma set_mode_same (self : TimerModel) : set_mode (_mode self) self = self.
Proof.
  unfold set_mode.
  destruct (TimerMode_eqb_spec (_mode self) (_mode self));
    [reflexivity | contradiction].
Qed.

(** X19.  Selecting again the mode the model is already in, while the
    model runs, stops the polling but not the model: the model stays
    RUNNING with the same [_start_perf], while no [_on_update] callback
    is scheduled any more, so the time label is no longer refreshed. *)
Theorem reselect_mode_stops_polling (int_of_str : string -> option Z)
    (app : FloatingTimerApp) :
  jobs_recorded app ->
  _state (model app) = RUNNING ->
  let app' := handle int_of_str (SelectMode (_mode (model app))) app in
  _state (model app') = RUNNING /\
  _start_perf (model app') = _start_perf (model app) /\
  _update_job app' = None /\
  forall id, pending id (after_jobs (root app')) <> Some OnUpdate.
Proof.
  intros Hjobs Hrun.
  pose proof (handle_jobs_recorded int_of_str
                (SelectMode (_mode (model app))) app Hjobs) as Hjobs'.
  cbn [handle] in *.
  assert (Hfields :
    model (_on_mode_change int_of_str
             (set_mode_var (TimerMode_value (_mode (model app))) app)) =
      (if TimerMode_eqb (_mode (model app)) DOWN
       then model (_apply_countdown int_of_str
                     (set_model (model app)
                        (_cancel_update_loop
                           (_stop_flash
                              (set_mode_var
                                 (TimerMode_value (_mode (model app)))
                                 app)))))
       else model app) /\
    _update_job (_on_mode_change int_of_str
             (set_mode_var (TimerMode_value (_mode (model app))) app)) =
      None).
  { unfold _on_mode_change. cbv zeta.
    cbn [_mode_var set_mode_var]. rewrite mode_of_value.
    rewrite cancel_update_loop_model, stop_flash_model.
    cbn [model set_mode_var]. rewrite set_mode_same.
    destruct (TimerMode_eqb (_mode (model app)) DOWN);
      autorewrite with attrs; split; reflexivity. }
  destruct Hfields as [Hmodel Hjob].
  assert (Hstate :
    _state (model (_on_mode_change int_of_str
             (set_mode_var (TimerMode_value (_mode (model app))) app))) =
      RUNNING /\
    _start_perf (model (_on_mode_change int_of_str
             (set_mode_var (TimerMode_value (_mode (model app))) app))) =
      _start_perf (model app)).
  { rewrite Hmodel. destruct (TimerMode_eqb (_mode (model app)) DOWN).
    - rewrite apply_countdown_model. cbn [model set_model].
      unfold set_target_seconds. cbn [_state _start_perf]. auto.
    - auto. }
  destruct Hstate as [Hstate Hperf].
  split; [exact Hstate|]. split; [exact Hperf|]. split; [exact Hjob|].
  intros id Hp.
  pose proof (recorded_pending _ _ _ id OnUpdate Hjobs' Hp) as Hid.
  cbv beta iota in Hid. congruence.
Qed.

Lemma reselect_mode_stops_polling_witness :
  _state
    (model
       (handle decimal_int_of_str (SelectMode UP)
          (handle decimal_int_of_str (PressStart 0) FloatingTimerApp_init)))
  = RUNNING /\
  _update_job
    (handle decimal_int_of_str (SelectMode UP)
       (handle decimal_int_of_str (PressStart 0) FloatingTimerApp_init))
  = None.
Proof.
  destruct (reselect_mode_stops_polling decimal_int_of_str
              (handle decimal_int_of_str (PressStart 0)
                 FloatingTimerApp_init))
    as (Hstate & _ & Hjob & _).
  - apply handle_jobs_recorded. exact init_jobs_recorded.
  - reflexivity.
  - split; [exact Hstate | exact Hjob].
Defined.

(** ** The model in double arithmetic *)

Section Binary64Facts.

Import Binary64.

(** A snapshot that does not finish the run leaves the model alone, also
    when it raises; one that finishes it has found the model running in
    count-down mode with a remainder, in double arithmetic, that is not
    positive. *)
Lemma b64_snapshot_model_cases (now : float) (self : TimerModel) :
  snd (snapshot now self) = self \/
  (_state self = RUNNING /\ _mode self = DOWN /\
   snd (snapshot now self) =
     {| _mode := _mode self;
        _state := FINISHED;
        _target_seconds := _target_seconds self;
        _start_perf := None;
        _accumulated_elapsed := _accumulated_elapsed self |}).
Proof.
  unfold snapshot. destruct (_mode self) eqn:Hmode; [now left|].
  destruct (float_of_int (_target_seconds self)); [|now left].
  destruct (leb _ zero); [|now left].
  destruct (TimerState_eqb_spec (_state self) RUNNING) as [Hrun|Hrun];
    [|now left].
  right. simpl. auto.
Qed.

Lemma b64_snapshot_finishing (now : float) (self : TimerModel) :
  _state self <> FINISHED ->
  _state (snd (snapshot now self)) = FINISHED ->
  exists target,
    float_of_int (_target_seconds self) = Some target /\
    leb (sub target (elapsed_at now self)) zero = true.
Proof.
  unfold snapshot. intros Hfin.
  destruct (_mode self); simpl; [contradiction|].
  destruct (float_of_int (_target_seconds self)) as [target|];
    simpl; [|contradiction].
  destruct (leb (sub target (elapsed_at now self)) zero) eqn:Hle;
    simpl; [|contradiction].
  intros _. exists target. auto.
Qed.

(** What a snapshot returns: the elapsed time is [elapsed_at], and the
    call raises exactly for a count-down whose target does not fit a
    double. *)
Lemma b64_snapshot_result (now : float) (self : TimerModel) :
  match fst (snapshot now self) with
  | Ok snap => elapsed_seconds snap = elapsed_at now self
  | Raise _ =>
      _mode self = DOWN /\ float_of_int (_target_seconds self) = None
  end.
Proof.
  unfold snapshot. destruct (_mode self); [reflexivity|].
  destruct (float_of_int (_target_seconds self)); [|now split].
  destruct (leb _ zero); reflexivity.
Qed.

(** The clamp of the count-down branch is [max(0, d)] for every [d] that
    is a number. *)
Lemma b64_clamp_is_max_0 (d : float) :
  d <> S754_nan -> (if leb d zero then zero else d) = max_0 d.
Proof.
  intros Hnan. unfold max_0, leb, ltb, SFleb, SFltb, zero.
  destruct d as [s|[|]| |[|] m e]; simpl; try reflexivity.
  contradiction.
Qed.

Lemma b64_step_mode (o : op) (self : TimerModel) :
  _mode (step o self) =
  match o with
  | SetMode mode => mode
  | _ => _mode self
  end.
Proof.
  destruct o as [mode|seconds|now|now|now| |now]; simpl; try reflexivity.
  - unfold set_mode.
    destruct (TimerMode_eqb_spec mode (_mode self)); [congruence | reflexivity].
  - unfold start. destruct (TimerState_eqb _ _); reflexivity.
  - unfold pause. destruct (TimerState_eqb _ _); reflexivity.
  - unfold resume. destruct (TimerState_eqb _ _); reflexivity.
  - destruct (b64_snapshot_model_cases now self) as [Heq|(_ & _ & Heq)];
      rewrite Heq; reflexivity.
Qed.

Lemma b64_step_target_seconds (o : op) (self : TimerModel) :
  _target_seconds (step o self) =
  match o with
  | SetTargetSeconds seconds => Z.max 0 seconds
  | _ => _target_seconds self
  end.
Proof.
  destruct o as [mode|seconds|now|now|now| |now]; simpl; try reflexivity.
  - unfold set_mode. destruct (TimerMode_eqb _ _); reflexivity.
  - unfold start. destruct (TimerState_eqb _ _); reflexivity.
  - unfold pause. destruct (TimerState_eqb _ _); reflexivity.
  - unfold resume. destruct (TimerState_eqb _ _); reflexivity.
  - destruct (b64_snapshot_model_cases now self) as [Heq|(_ & _ & Heq)];
      rewrite Heq; reflexivity.
Qed.

(** Clock calls change neither the mode nor the target. *)
Lemma b64_run_clock_frame (ops : list op) :
  forall self : TimerModel,
    forallb is_clock_op ops = true ->
    _mode (run ops self) = _mode self /\
    _target_seconds (run ops self) = _target_seconds self.
Proof.
  induction ops as [|o rest IH]; intros self Hclock; [now split|].
  simpl in Hclock. apply andb_prop in Hclock as [Ho Hrest].
  destruct (IH (step o self) Hrest) as [Hm Ht]. simpl.
  rewrite Hm, Ht, b64_step_mode, b64_step_target_seconds.
  destruct o; try discriminate; now split.
Qed.

(** Only a snapshot of a running count-down whose remainder is not
    positive enters FINISHED. *)
Lemma b64_finished_only_by_step (o : op) (self : TimerModel) :
  _state self <> FINISHED ->
  _state (step o self) = FINISHED ->
  exists now,
    o = Snapshot now /\ _state self = RUNNING /\ _mode self = DOWN /\
    exists target,
      float_of_int (_target_seconds self) = Some target /\
      leb (sub target (elapsed_at now self)) zero = true.
Proof.
  intros Hnot Hfin.
  destruct o as [mode|seconds|now|now|now| |now]; simpl in Hfin.
  - unfold set_mode in Hfin.
    destruct (TimerMode_eqb mode (_mode self)); simpl in Hfin;
      [contradiction | discriminate].
  - contradiction.
  - unfold start in Hfin.
    destruct (TimerState_eqb (_state self) RUNNING); simpl in Hfin;
      [contradiction | discriminate].
  - unfold pause in Hfin.
    destruct (TimerState_eqb (_state self) RUNNING); simpl in Hfin;
      [discriminate | contradiction].
  - unfold resume in Hfin.
    destruct (TimerState_eqb (_state self) PAUSED); simpl in Hfin;
      [discriminate | contradiction].
  - discriminate.
  - pose proof (b64_snapshot_finishing now self Hnot Hfin) as Htarget.
    destruct (b64_snapshot_model_cases now self) as [Heq|(Hrun & Hmode & _)].
    + rewrite Heq in Hfin. contradiction.
    + exists now. auto.
Qed.

(** The invariant on [_start_perf] holds of the model in double
    arithmetic as well. *)
Lemma b64_start_perf_iff_running (ops : list op) :
  _start_perf (run ops init) <> None <-> _state (run ops init) = RUNNING.
Proof.
  assert (Hstep : forall o self,
             (_start_perf self <> None <-> _state self = RUNNING) ->
             (_start_perf (step o self) <> None <->
              _state (step o self) = RUNNING)).
  { intros o self [Hl Hr].
    destruct o as [mode|seconds|now|now|now| |now]; simpl.
    - unfold set_mode.
      destruct (TimerMode_eqb mode (_mode self)); simpl;
        [tauto | split; [congruence | discriminate]].
    - tauto.
    - unfold start.
      destruct (TimerState_eqb (_state self) RUNNING); simpl;
        [tauto | split; [reflexivity | discriminate]].
    - unfold pause.
      destruct (TimerState_eqb (_state self) RUNNING); simpl;
        [split; [congruence | discriminate] | tauto].
    - unfold resume.
      destruct (TimerState_eqb (_state self) PAUSED); simpl;
        [split; [reflexivity | discriminate] | tauto].
    - split; [congruence | discriminate].
    - destruct (b64_snapshot_model_cases now self) as [Heq|(_ & _ & Heq)];
        rewrite Heq; simpl; [tauto | split; [congruence | discriminate]]. }
  assert (Hrun : forall self,
             (_start_perf self <> None <-> _state self = RUNNING) ->
             (_start_perf (run ops self) <> None <->
              _state (run ops self) = RUNNING)).
  { induction ops as [|o rest IH]; intros self Hinv; simpl; [exact Hinv|].
    apply IH, Hstep, Hinv. }
  apply Hrun. simpl. split; [congruence | discriminate].
Qed.

(** C3.  For every model and every [now].  In count-up mode the snapshot
    returns with no [remaining_seconds] and changes no attribute of the
    model.  In count-down mode the integer target is first converted to
    a double: when it does not fit, the call raises [OverflowError] and
    the model is as it was; otherwise the snapshot returns, and with [d]
    the difference, in double arithmetic, between the converted target
    and the reported elapsed time, [remaining_seconds] is [max(0, d)] on
    the nose (zero at the boundary where the two are equal) when [d] is
    a number, and the NaN when [d] is the NaN. *)
Theorem binary64_snapshot_remaining_seconds (now : float)
    (self : TimerModel) :
  match _mode self with
  | UP =>
      exists snap,
        snapshot now self = (Ok snap, self) /\
        remaining_seconds snap = None
  | DOWN =>
      match float_of_int (_target_seconds self) with
      | None => snapshot now self = (Raise OverflowError, self)
      | Some target =>
          exists snap self',
            snapshot now self = (Ok snap, self') /\
            (sub target (elapsed_seconds snap) <> S754_nan ->
             remaining_seconds snap =
               Some (max_0 (sub target (elapsed_seconds snap)))) /\
            (sub target (elapsed_seconds snap) = S754_nan ->
             remaining_seconds snap = Some S754_nan)
      end
  end.
Proof.
  unfold snapshot. destruct (_mode self) eqn:Hmode.
  - eexists. split; reflexivity.
  - destruct (float_of_int (_target_seconds self)) as [target|];
      [|reflexivity].
    destruct (leb (sub target (elapsed_at now self)) zero) eqn:Hle.
    + eexists. eexists. split; [reflexivity|]. simpl. split.
      * intros Hnan. rewrite <- b64_clamp_is_max_0, Hle by exact Hnan.
        reflexivity.
      * intros Hnan. rewrite Hnan in Hle. discriminate.
    + eexists. eexists. split; [reflexivity|]. simpl. split.
      * intros Hnan. rewrite <- b64_clamp_is_max_0, Hle by exact Hnan.
        reflexivity.
      * intros Hnan. rewrite Hnan. reflexivity.
Qed.

Lemma binary64_snapshot_remaining_seconds_witness :
  exists snap self',
    snapshot (of_Z 2) (start (of_Z 0) countdown5) = (Ok snap, self') /\
    remaining_seconds snap = Some (of_Z 3).
Proof.
  pose proof (binary64_snapshot_remaining_seconds (of_Z 2)
                (start (of_Z 0) countdown5)) as H.
  change (_mode (start (of_Z 0) countdown5)) with DOWN in H.
  change (float_of_int (_target_seconds (start (of_Z 0) countdown5)))
    with (Some (of_Z 5)) in H.
  cbv beta iota in H.
  destruct H as (snap & self' & Hsnap & Hmax & _).
  exists snap, self'. split; [exact Hsnap|].
  assert (Hel : elapsed_seconds snap = of_Z 2).
  { apply (f_equal fst) in Hsnap. vm_compute in Hsnap.
    injection Hsnap as <-. reflexivity. }
  rewrite Hmax; rewrite Hel; [reflexivity | vm_compute; discriminate].
Defined.

(** An idle count-down with a target of [2^53 + 1] seconds and no
    elapsed time reports [2^53] remaining seconds, which is not the
    difference between target and elapsed time; with a target of
    [2^1024] seconds the snapshot raises and reports nothing. *)
Lemma remaining_not_exact_difference :
  fst (snapshot zero countdown_odd) =
    Ok {| snap_mode := DOWN;
          snap_state := IDLE;
          elapsed_seconds := zero;
          remaining_seconds := Some (of_Z (2 ^ 53)) |} /\
  value zero = Some 0 /\
  value (of_Z (2 ^ 53)) = Some (inject_Z (2 ^ 53)) /\
  ~ (inject_Z (2 ^ 53) ==
     Qmax 0 (inject_Z (_target_seconds countdown_odd) - 0)) /\
  fst (snapshot zero countdown_huge) = Raise OverflowError.
Proof.
  split; [vm_compute; reflexivity|]. split; [reflexivity|].
  split; [vm_compute; reflexivity|]. split; [|vm_compute; reflexivity].
  vm_compute. discriminate.
Qed.

(** One clock call that does not finish the run does one of three
    things: nothing; enter Running at the reading of the call, keeping
    the accumulation; leave Running by [pause], banking the period that
    ends at the reading of the call. *)
Lemma b64_clock_step (o : op) (t : float) (self : TimerModel) :
  op_time o = Some t ->
  _state (step o self) <> FINISHED ->
  _state self <> FINISHED ->
  (_state self = RUNNING -> _start_perf self <> None) ->
  (_state self = IDLE -> _accumulated_elapsed self = zero) ->
  step o self = self \/
  (is_running self = false /\
   step o self =
     {| _mode := _mode self;
        _state := RUNNING;
        _target_seconds := _target_seconds self;
        _start_perf := Some t;
        _accumulated_elapsed := _accumulated_elapsed self |}) \/
  (exists since,
      _state self = RUNNING /\ _start_perf self = Some since /\
      step o self =
        {| _mode := _mode self;
           _state := PAUSED;
           _target_seconds := _target_seconds self;
           _start_perf := None;
           _accumulated_elapsed :=
             add (_accumulated_elapsed self) (sub t since) |}).
Proof.
  intros Ht Hnf Hfin Hrun Hidle.
  destruct o as [mode|seconds|now|now|now| |now]; simpl in Ht;
    try discriminate; injection Ht as ->; simpl.
  - unfold start, is_running.
    destruct (_state self) eqn:Hs; simpl.
    + right. left. rewrite (Hidle eq_refl). auto.
    + now left.
    + right. left. auto.
    + exfalso. now apply Hfin.
  - unfold pause, is_running.
    destruct (_state self) eqn:Hs; simpl; try now left.
    destruct (_start_perf self) as [since|] eqn:Hp.
    + right. right. exists since. auto.
    + exfalso. now apply Hrun.
  - unfold resume, is_running.
    destruct (_state self) eqn:Hs; simpl; try now left.
    right. left. auto.
  - simpl in Hnf.
    destruct (b64_snapshot_model_cases t self) as [Heq|(_ & _ & Heq)];
      rewrite Heq in *; [now left | now simpl in Hnf].
Qed.

(** The elapsed time after a sequence of clock calls, from any model
    that is not finished: the accumulation of the model, then the
    periods spent Running in order, then the period still running. *)
Lemma b64_elapsed_run (ops : list op) :
  forall (self : TimerModel) (now : float),
    forallb is_clock_op ops = true ->
    never_finished self ops = true ->
    _state self <> FINISHED ->
    (_state self = RUNNING -> _start_perf self <> None) ->
    (_state self = IDLE -> _accumulated_elapsed self = zero) ->
    elapsed_at now (run ops self) =
    (let '(periods, last) :=
       running_periods self
         (if is_running self then _start_perf self else None) ops in
     match last with
     | Some since =>
         add (sum_durations (_accumulated_elapsed self) periods)
           (sub now since)
     | None => sum_durations (_accumulated_elapsed self) periods
     end).
Proof.
  induction ops as [|o rest IH]; intros self now Hclock Hnf Hfin Hrun Hidle.
  - simpl. unfold elapsed_at, is_running.
    destruct (_state self) eqn:Hs; simpl; reflexivity.
  - simpl in Hclock, Hnf. apply andb_prop in Hclock as [Ho Hrest].
    apply andb_prop in Hnf as [Hstep Hnf].
    unfold is_clock_op in Ho.
    destruct (op_time o) as [t|] eqn:Ht; [clear Ho | discriminate].
    assert (Hfin' : _state (step o self) <> FINISHED).
    { destruct (TimerState_eqb_spec (_state (step o self)) FINISHED);
        [discriminate | assumption]. }
    cbn [run running_periods]. rewrite Ht.
    destruct (b64_clock_step o t self Ht Hfin' Hfin Hrun Hidle)
      as [Hsame|[[Hnot Henter]|(since & Hs & Hp & Hleave)]].
    + rewrite Hsame in *.
      rewrite (IH self now Hrest Hnf Hfin Hrun Hidle).
      destruct (is_running self); [|reflexivity].
      destruct (_start_perf self); reflexivity.
    + rewrite Henter in *. rewrite Hnot.
      assert (HIH := IH _ now Hrest Hnf Hfin').
      cbn [is_running _state _start_perf _accumulated_elapsed
           TimerState_eqb] in HIH |- *.
      apply HIH; [discriminate | intros Habs; discriminate].
    + rewrite Hleave in *.
      assert (Hr : is_running self = true)
        by (unfold is_running; rewrite Hs; reflexivity).
      rewrite Hr, Hp.
      assert (HIH := IH _ now Hrest Hnf Hfin').
      cbn [is_running _state _start_perf _accumulated_elapsed
           TimerState_eqb] in HIH |- *.
      rewrite HIH; [|intros Habs; discriminate | intros Habs; discriminate].
      destruct (running_periods _ None rest) as [periods last].
      reflexivity.
Qed.

(** Polling that never finishes the run does not change the model. *)
Lemma b64_run_without_snapshots (ops : list op) :
  forall self : TimerModel,
    never_finished self ops = true ->
    _state self <> FINISHED ->
    run (without_snapshots ops) self = run ops self.
Proof.
  induction ops as [|o rest IH]; intros self Hnf Hfin; [reflexivity|].
  simpl in Hnf. apply andb_prop in Hnf as [Hstep Hnf].
  assert (Hfin' : _state (step o self) <> FINISHED).
  { destruct (TimerState_eqb_spec (_state (step o self)) FINISHED);
      [discriminate | assumption]. }
  destruct o as [mode|seconds|t|t|t| |t]; simpl;
    try (apply IH; assumption).
  simpl in Hnf, Hfin'.
  destruct (b64_snapshot_model_cases t self) as [Heq|(_ & _ & Heq)];
    rewrite Heq in *; [apply IH; assumption | now simpl in Hfin'].
Qed.

(** In count-up mode no sequence of clock calls reaches FINISHED. *)
Lemma b64_never_finished_count_up (ops : list op) :
  forall self : TimerModel,
    _mode self = UP ->
    _state self <> FINISHED ->
    forallb is_clock_op ops = true ->
    never_finished self ops = true.
Proof.
  induction ops as [|o rest IH]; intros self Hmode Hfin Hclock; [reflexivity|].
  simpl in Hclock. apply andb_prop in Hclock as [Ho Hrest].
  assert (Hstep : _state (step o self) <> FINISHED).
  { intros Hcontra.
    destruct (b64_finished_only_by_step o self Hfin Hcontra)
      as (t & _ & _ & Hdown & _).
    congruence. }
  assert (Hmode' : _mode (step o self) = UP).
  { rewrite b64_step_mode. destruct o; try discriminate; assumption. }
  simpl. rewrite (IH (step o self) Hmode' Hstep Hrest).
  destruct (TimerState_eqb_spec (_state (step o self)) FINISHED);
    [contradiction | reflexivity].
Qed.

(** C1.  For a model as a reset or a mode switch leaves it and every
    sequence of [start], [pause], [resume] and [snapshot] calls, provided
    the model counts up or no call of the sequence finishes the run.
    The snapshot at [now] returns, except for a count-down whose target
    does not fit a double, where it raises [OverflowError].  The elapsed
    time it reports is the sum of the durations of the periods the model
    has spent Running, where each duration and each partial sum is
    rounded as double arithmetic rounds it and the periods are added in
    order; and the interleaved snapshots change neither the model nor
    what the snapshot returns.  The timestamps are arbitrary doubles,
    non-decreasing ones included.  In particular [start(0)], [pause(3)],
    [resume(3)], [snapshot(7)] reports 7. *)
Theorem binary64_elapsed_is_running_time (self : TimerModel)
    (ops : list op) (now : float) :
  freshly_reset self ->
  forallb is_clock_op ops = true ->
  _mode self = UP \/ never_finished self ops = true ->
  match fst (snapshot now (run ops self)) with
  | Ok snap => elapsed_seconds snap = running_time self ops now
  | Raise _ =>
      _mode self = DOWN /\ float_of_int (_target_seconds self) = None
  end /\
  snapshot now (run (without_snapshots ops) self) =
    snapshot now (run ops self) /\
  match
    fst (snapshot (of_Z 7)
           (run [Start (of_Z 0); Pause (of_Z 3); Resume (of_Z 3)] self))
  with
  | Ok snap => elapsed_seconds snap = of_Z 7
  | Raise _ =>
      _mode self = DOWN /\ float_of_int (_target_seconds self) = None
  end.
Proof.
  intros Hfresh Hclock Hmode.
  unfold freshly_reset, reset in Hfresh.
  assert (Hidle : _state self = IDLE) by (rewrite <- Hfresh; reflexivity).
  assert (Hacc : _accumulated_elapsed self = zero)
    by (rewrite <- Hfresh; reflexivity).
  assert (Hfin : _state self <> FINISHED) by (rewrite Hidle; discriminate).
  assert (Hnf : never_finished self ops = true).
  { destruct Hmode as [Hup|Hnf]; [|exact Hnf].
    now apply b64_never_finished_count_up. }
  split; [|split].
  - pose proof (b64_snapshot_result now (run ops self)) as Hres.
    destruct (b64_run_clock_frame ops self Hclock) as [Hm Ht].
    rewrite Hm, Ht in Hres.
    destruct (fst (snapshot now (run ops self))) as [snap|e]; [|exact Hres].
    rewrite Hres, (b64_elapsed_run ops self now Hclock Hnf Hfin).
    + unfold running_time, is_running. rewrite Hidle, Hacc. reflexivity.
    + rewrite Hidle. discriminate.
    + intros _. exact Hacc.
  - rewrite (b64_run_without_snapshots ops self Hnf Hfin). reflexivity.
  - pose proof (b64_snapshot_result (of_Z 7)
                  (run [Start (of_Z 0); Pause (of_Z 3); Resume (of_Z 3)]
                     self)) as Hres.
    destruct (b64_run_clock_frame
                [Start (of_Z 0); Pause (of_Z 3); Resume (of_Z 3)] self
                eq_refl) as [Hm Ht].
    rewrite Hm, Ht in Hres.
    destruct (fst (snapshot (of_Z 7) _)) as [snap|e]; [|exact Hres].
    rewrite Hres.
    destruct self as [m st tg sp acc]; simpl in Hidle, Hacc; subst st acc.
    vm_compute. reflexivity.
Qed.

Lemma binary64_elapsed_is_running_time_witness :
  match
    fst (snapshot (of_Z 7)
           (run [Start (of_Z 0); Snapshot (of_Z 2); Pause (of_Z 3);
                 Resume (of_Z 3)] countdown5))
  with
  | Ok snap =>
      elapsed_seconds snap =
      running_time countdown5
        [Start (of_Z 0); Snapshot (of_Z 2); Pause (of_Z 3); Resume (of_Z 3)]
        (of_Z 7)
  | Raise _ =>
      _mode countdown5 = DOWN /\
      float_of_int (_target_seconds countdown5) = None
  end.
Proof.
  apply (binary64_elapsed_is_running_time countdown5
           [Start (of_Z 0); Snapshot (of_Z 2); Pause (of_Z 3);
            Resume (of_Z 3)] (of_Z 7)).
  - reflexivity.
  - reflexivity.
  - right. reflexivity.
Defined.

(** Count-down, target five seconds: [start(0)], a snapshot at 5 that
    finishes the run, [start(6)] (a restart from zero), observed at 8.
    The snapshot reports 2 elapsed seconds; the model has been Running
    for 5 and then 2 seconds, and without the interleaved snapshot the
    same calls report 8. *)
Lemma polling_changes_elapsed :
  freshly_reset countdown5 /\
  forallb is_clock_op [Start (of_Z 0); Snapshot (of_Z 5); Start (of_Z 6)]
  = true /\
  reported_elapsed
    (fst (snapshot (of_Z 8)
            (run [Start (of_Z 0); Snapshot (of_Z 5); Start (of_Z 6)]
               countdown5))) = Some (of_Z 2) /\
  running_time countdown5
    [Start (of_Z 0); Snapshot (of_Z 5); Start (of_Z 6)] (of_Z 8) = of_Z 7 /\
  reported_elapsed
    (fst (snapshot (of_Z 8)
            (run (without_snapshots
                    [Start (of_Z 0); Snapshot (of_Z 5); Start (of_Z 6)])
               countdown5))) = Some (of_Z 8) /\
  of_Z 2 <> of_Z 7 /\ of_Z 2 <> of_Z 8.
Proof.
  repeat split; try (vm_compute; reflexivity); vm_compute; discriminate.
Qed.

(** The models agree with the source on the inputs where rounding
    decides: with a target of five seconds, [start(0.1)] and a snapshot
    at [5.1], the difference [5.1 - 0.1] rounds to [5.0] and the snapshot
    finishes the run. *)
Example rounding_finishes_the_run :
  snapshot (S754_finite false 5742089524897382 (-50))
    (start (S754_finite false 7205759403792794 (-56)) countdown5) =
  (Ok {| snap_mode := DOWN;
         snap_state := FINISHED;
         elapsed_seconds := of_Z 5;
         remaining_seconds := Some zero |},
   {| _mode := DOWN;
      _state := FINISHED;
      _target_seconds := 5;
      _start_perf := None;
      _accumulated_elapsed := zero |}).
Proof. vm_compute. reflexivity. Qed.

(** The finishing snapshot does not bank the run in double arithmetic
    either: count-down, target five seconds, [start(0)], a snapshot at 5
    and one at 10. *)
Example binary64_auto_finish_not_frozen :
  fst (snapshot (of_Z 5) (start (of_Z 0) countdown5)) =
    Ok {| snap_mode := DOWN;
          snap_state := FINISHED;
          elapsed_seconds := of_Z 5;
          remaining_seconds := Some zero |} /\
  fst (snapshot (of_Z 10)
         (snd (snapshot (of_Z 5) (start (of_Z 0) countdown5)))) =
    Ok {| snap_mode := DOWN;
          snap_state := FINISHED;
          elapsed_seconds := zero;
          remaining_seconds := Some (of_Z 5) |}.
Proof. split; vm_compute; reflexivity. Qed.

End Binary64Facts.
